(** * VoiceBot: script-based language routing and pipeline bootstrap

    A shallow embedding of [voiceai.py]: the [Assistant] agent (script
    detection, routing decision, the wrapped [say]) and the [entrypoint]
    coroutine that builds the STT / LLM / TTS / VAD handles with cascading
    fallback, creates the session and asks for the first greeting.

    Python values are modelled dynamically ([pyval]); a [str] is its
    sequence of code points.  Statements run in a small monad that threads
    the interpreter state (the heap cell of the [Assistant] instance, the
    logger output, the calls made to the external runtime) and carries the
    three ways a Python block can end: fall through, [return], [raise]. *)

From Stdlib Require Import List NArith ZArith QArith Bool String Ascii Lia.
Import ListNotations.

Set Implicit Arguments.
Local Open Scope N_scope.
Local Open Scope list_scope.

(* ===================================================================== *)
(** ** Python strings *)
(* ===================================================================== *)

Definition codepoint := N.

(** A Python [str]: an immutable sequence of Unicode code points. *)
Definition str := list codepoint.

(** An ASCII literal of the source, as a [str]. *)
Definition lit (s : string) : str := map N_of_ascii (list_ascii_of_string s).

(** [str.isspace] on one code point (the table of CPython's
    [_PyUnicode_IsWhitespace]). *)
Definition py_isspace (c : codepoint) : bool :=
  ((0x09 <=? c) && (c <=? 0x0D)) || ((0x1C <=? c) && (c <=? 0x20))
  || (c =? 0x85) || (c =? 0xA0) || (c =? 0x1680)
  || ((0x2000 <=? c) && (c <=? 0x200A))
  || (c =? 0x2028) || (c =? 0x2029) || (c =? 0x202F) || (c =? 0x205F)
  || (c =? 0x3000).

Fixpoint lstrip (s : str) : str :=
  match s with
  | [] => []
  | c :: s' => if py_isspace c then lstrip s' else s
  end.

Definition rstrip (s : str) : str := rev (lstrip (rev s)).

(** [s.strip()] with no argument. *)
Definition strip (s : str) : str := rstrip (lstrip s).

(** [bytes.strip()] removes ASCII whitespace only. *)
Definition bytes_isspace (b : N) : bool :=
  ((0x09 <=? b) && (b <=? 0x0D)) || (b =? 0x20).

Fixpoint bytes_lstrip (s : list N) : list N :=
  match s with
  | [] => []
  | c :: s' => if bytes_isspace c then bytes_lstrip s' else s
  end.

Definition bytes_strip (s : list N) : list N :=
  rev (bytes_lstrip (rev (bytes_lstrip s))).

Fixpoint str_eqb (a b : str) : bool :=
  match a, b with
  | [], [] => true
  | x :: a', y :: b' => (x =? y) && str_eqb a' b'
  | _, _ => false
  end.

(** [a <= b] on two [str]: lexicographic on code points. *)
Fixpoint str_le (a b : str) : bool :=
  match a, b with
  | [], _ => true
  | _ :: _, [] => false
  | x :: a', y :: b' =>
      if x <? y then true else if x =? y then str_le a' b' else false
  end.

(* ===================================================================== *)
(** ** Exceptions *)
(* ===================================================================== *)

(** The exception classes the program can meet.  The first three derive
    from [BaseException] only; the others are subclasses of [Exception]. *)
Inductive exc_class :=
| KeyboardInterrupt | SystemExit | CancelledError
| TimeoutError | AttributeError | TypeError | ValueError
| RuntimeError | ConnectionError.

Record exn := mkExn { exc_type : exc_class; exc_text : str }.

(** [isinstance(e, Exception)]: what [except Exception] catches. *)
Definition is_Exception (e : exn) : bool :=
  match exc_type e with
  | KeyboardInterrupt | SystemExit | CancelledError => false
  | _ => true
  end.

(** [isinstance(e, asyncio.TimeoutError)]. *)
Definition is_TimeoutError (e : exn) : bool :=
  match exc_type e with TimeoutError => true | _ => false end.

(** [isinstance(e, asyncio.CancelledError)]. *)
Definition is_CancelledError (e : exn) : bool :=
  match exc_type e with CancelledError => true | _ => false end.

(** A bare [except:] catches every exception. *)
Definition is_BaseException (e : exn) : bool := true.

(* ===================================================================== *)
(** ** Python values *)
(* ===================================================================== *)

#[warnings="-register-all"]
Inductive pyval :=
| PyNone
| PyBool (b : bool)
| PyInt (z : Z)
| PyStr (s : str)
| PyBytes (b : list N)
| PyList (l : list pyval)
| PyObj (id : N)        (* an opaque object of the external runtime *)
| PyInstance (addr : nat). (* a reference to an [Assistant] on the heap *)

Definition type_name (v : pyval) : str :=
  match v with
  | PyNone => lit "NoneType"
  | PyBool _ => lit "bool"
  | PyInt _ => lit "int"
  | PyStr _ => lit "str"
  | PyBytes _ => lit "bytes"
  | PyList _ => lit "list"
  | PyObj _ => lit "object"
  | PyInstance _ => lit "Assistant"
  end.

(** Truth value of an object, as tested by [not], [if] and [or]. *)
Definition py_truthy (v : pyval) : bool :=
  match v with
  | PyNone => false
  | PyBool b => b
  | PyInt z => negb (z =? 0)%Z
  | PyStr s => match s with [] => false | _ => true end
  | PyBytes b => match b with [] => false | _ => true end
  | PyList l => match l with [] => false | _ => true end
  | PyObj _ => true
  | PyInstance _ => true
  end.

Definition py_not (v : pyval) : bool := negb (py_truthy v).

(** [v == ""]: only a [str] can be equal to a [str]. *)
Definition py_eq_str (v : pyval) (s : str) : bool :=
  match v with
  | PyStr t => str_eqb t s
  | _ => false
  end.

(** Expressions that may raise: [inl e] is the raised exception. *)
Definition E (A : Type) : Type := exn + A.

Definition Ebind {A B} (m : E A) (k : A -> E B) : E B :=
  match m with
  | inl e => inl e
  | inr a => k a
  end.

(** [v.strip()] *)
Definition py_strip (v : pyval) : E pyval :=
  match v with
  | PyStr s => inr (PyStr (strip s))
  | PyBytes b => inr (PyBytes (bytes_strip b))
  | _ => inl (mkExn AttributeError
                (lit "'" ++ type_name v ++ lit "' object has no attribute 'strip'"))
  end.

(** [iter(v)], unrolled: the items a [for] clause draws from [v]. *)
Definition py_iter (v : pyval) : E (list pyval) :=
  match v with
  | PyStr s => inr (map (fun c => PyStr [c]) s)
  | PyBytes b => inr (map (fun n => PyInt (Z.of_N n)) b)
  | PyList l => inr l
  | _ => inl (mkExn TypeError
                (lit "'" ++ type_name v ++ lit "' object is not iterable"))
  end.

Definition le_unsupported (a b : pyval) : exn :=
  mkExn TypeError
    (lit "'<=' not supported between instances of '" ++ type_name a
       ++ lit "' and '" ++ type_name b ++ lit "'").

(** [a <= b] where one side is a [str] literal. *)
Definition py_le (a b : pyval) : E bool :=
  match a, b with
  | PyStr s, PyStr t => inr (str_le s t)
  | _, _ => inl (le_unsupported a b)
  end.

(** The chained comparison ['\ulo' <= char <= '\uhi']. *)
Definition between (lo hi : codepoint) (char : pyval) : E bool :=
  Ebind (py_le (PyStr [lo]) char) (fun b1 =>
  if b1 then py_le char (PyStr [hi]) else inr false).

(** [any(p(x) for x in items)]: stops at the first true item; an
    exception raised by [p] leaves the loop. *)
Fixpoint py_any (p : pyval -> E bool) (items : list pyval) : E bool :=
  match items with
  | [] => inr false
  | x :: rest => Ebind (p x) (fun b => if b then inr true else py_any p rest)
  end.

(** [a or b] on two tests, the second evaluated only when the first is
    false. *)
Definition Eor (a : E bool) (b : E bool) : E bool :=
  Ebind a (fun x => if x then inr true else b).

(* ===================================================================== *)
(** ** The interpreter state and the statement monad *)
(* ===================================================================== *)

Inductive level := INFO | WARNING | ERROR.

(** One line written through the module-level [logger]. *)
Definition log_record : Type := level * str.

(** The fields of an [Assistant] instance: [instructions] is the text
    handed to [Agent.__init__], the other two are set by
    [Assistant.__init__]. *)
Record Assistant := mkAssistant {
  instructions : str;
  user_language_preference : str;
  conversation_history : list pyval }.

(** [agents.JobContext], of which [entrypoint] reads [ctx.room] only. *)
Record JobContext := mkJobContext { room : pyval }.

(** The calls the program makes into the plugins and the agent runtime,
    with the arguments written in the source. *)
Inductive call :=
| groq_STT (model : str) (api_key : pyval) (language : str)
    (detect_language : bool)
| deepgram_STT (model language : str)
    (interim_results smart_format punctuate : bool)
| groq_LLM (model : str)
| azure_TTS (speech_key speech_region : pyval) (voice : str)
    (language : option str) (sample_rate : Z)
| silero_VAD_load (durations : option (Q * Q))
| AgentSession (stt llm tts vad : pyval)
| noise_cancellation_BVC
| RoomInputOptions (noise_cancellation : pyval)
| session_start (session room agent room_input_options : pyval)
| session_generate_reply (session : pyval) (instructions : str)
| super_say (message : str) (allow_interruptions add_to_chat_ctx : bool).

(** An external call and how it ended. *)
Definition event : Type := call * E pyval.

(** How a block of statements ends. *)
Inductive signal (A : Type) :=
| Normal (a : A)        (* falls through to the next statement *)
| Return (v : pyval)    (* a [return] statement was executed *)
| Raise (e : exn).      (* an exception is propagating *)

Arguments Normal {A} a.
Arguments Return {A} v.
Arguments Raise {A} e.

Section Runtime.

(** The state of everything outside this file (services, network, the
    base [Agent] class), and how each call acts on it. *)
Variable W : Type.
Variable ext : call -> W -> E pyval * W.

(** For a call awaited under [asyncio.wait_for]: the time after which it
    would complete ([None]: never); and, when it is cancelled at the
    timeout, the time it takes to end, how it ends (with
    [CancelledError] when it obeys, with a value or another exception
    when it does not) and the state it leaves behind. *)
Variable duration : call -> W -> option Q.
Variable interrupt : call -> W -> Q * E pyval * W.

(** [os.environ], as loaded by [load_dotenv()]. *)
Variable environ : str -> option str.

(** The prompt literal of [Assistant.__init__]'s [super().__init__] call.
    No operation inspects it. *)
Variable INSTRUCTIONS : str.

Record state := mkState {
  heap : list Assistant;   (* the [Assistant] instances created so far *)
  log : list log_record;   (* what [logger] has written *)
  trace : list event;      (* the external calls made, oldest first *)
  waited : Q;              (* time spent inside [asyncio.wait_for] *)
  world : W }.

Definition M (A : Type) : Type := state -> signal A * state.

Definition ret {A} (a : A) : M A := fun st => (Normal a, st).

Definition bind {A B} (m : M A) (k : A -> M B) : M B :=
  fun st =>
    match m st with
    | (Normal a, st') => k a st'
    | (Return v, st') => (Return v, st')
    | (Raise e, st') => (Raise e, st')
    end.

Definition return_ {A} (v : pyval) : M A := fun st => (Return v, st).

Definition raise {A} (e : exn) : M A := fun st => (Raise e, st).

(** [if c: body] as a statement. *)
Definition when (c : bool) (body : M unit) : M unit :=
  if c then body else ret tt.

(** Evaluating an expression that may raise. *)
Definition eval {A} (x : E A) : M A :=
  match x with
  | inl e => raise e
  | inr a => ret a
  end.

(** [try: body  except <class> as e: handler e].  A [return] inside
    [body] leaves the statement; an exception the clause does not match,
    or one raised by the handler, keeps propagating. *)
Definition try_except {A} (body : M A) (matches : exn -> bool)
    (handler : exn -> M A) : M A :=
  fun st =>
    match body st with
    | (Raise e, st') =>
        if matches e then handler e st' else (Raise e, st')
    | r => r
    end.

(** A function body run to its end: falling off the end returns
    [None]. *)
Definition def (body : M unit) : state -> E pyval * state :=
  fun st =>
    match body st with
    | (Normal _, st') => (inr PyNone, st')
    | (Return v, st') => (inr v, st')
    | (Raise e, st') => (inl e, st')
    end.

(** Calling such a function from a statement. *)
Definition invoke (f : state -> E pyval * state) : M pyval :=
  fun st =>
    match f st with
    | (inr v, st') => (Normal v, st')
    | (inl e, st') => (Raise e, st')
    end.

Definition logger (lv : level) (msg : str) : M unit :=
  fun st =>
    (Normal tt,
     mkState (heap st) (log st ++ [(lv, msg)]) (trace st) (waited st)
       (world st)).

(** The state after one more log line. *)
Definition logged (lv : level) (msg : str) (st : state) : state :=
  snd (logger lv msg st).

Definition logger_info := logger INFO.
Definition logger_warning := logger WARNING.
Definition logger_error := logger ERROR.

(** An external call (awaited when it is a coroutine): its outcome is the
    runtime's, and the call is appended to the trace.  The runtime acts on
    [world]; the attributes of an [Assistant] live on [heap], which only
    this file's code can reach. *)
Definition call_ext (c : call) : M pyval :=
  fun st =>
    let (r, w') := ext c (world st) in
    let st' := mkState (heap st) (log st) (trace st ++ [(c, r)])
                 (waited st) w' in
    match r with
    | inr v => (Normal v, st')
    | inl e => (Raise e, st')
    end.

(** [await asyncio.wait_for(c, timeout)]: the call's own outcome when it
    completes before the timeout.  Otherwise the call is cancelled and
    waited for until it has ended: if it ended by the cancellation,
    [TimeoutError] is raised; if it returned or raised something else
    all the same, that result comes out.  The wait then lasts the
    timeout plus the time the cancellation took. *)
Definition asyncio_wait_for (c : call) (timeout : Q) : M pyval :=
  fun st =>
    let timed_out :=
      let '(delay, r, w') := interrupt c (world st) in
      let st' := mkState (heap st) (log st) (trace st ++ [(c, r)])
                   (waited st + (timeout + delay))%Q w' in
      match r with
      | inr v => (Normal v, st')
      | inl e =>
          if is_CancelledError e
          then (Raise (mkExn TimeoutError []), st')
          else (Raise e, st')
      end in
    match duration c (world st) with
    | Some d =>
        if Qle_bool timeout d then timed_out
        else
          let (r, w') := ext c (world st) in
          let st' := mkState (heap st) (log st) (trace st ++ [(c, r)])
                       (waited st + d)%Q w' in
          match r with
          | inr v => (Normal v, st')
          | inl e => (Raise e, st')
          end
    | None => timed_out
    end.

(** [os.getenv(name)] *)
Definition os_getenv (name : str) : pyval :=
  match environ name with
  | Some v => PyStr v
  | None => PyNone
  end.


Notation "x <- m ;; k" := (bind m (fun x => k))
  (at level 61, m at next level, right associativity).
Notation "m ;; k" := (bind m (fun _ => k))
  (at level 61, right associativity).

(* =================================================================== *)
(** ** class Assistant(Agent) *)
(* =================================================================== *)

(** [Assistant()]: allocates the instance; [super().__init__] stores the
    instructions, then the two attributes are set. *)
Definition __init__ : M pyval :=
  fun st =>
    (Normal (PyInstance (List.length (heap st))),
     mkState
       (heap st ++ [mkAssistant INSTRUCTIONS (lit "english") []])
       (log st) (trace st) (waited st) (world st)).

(** The body of the [try] in [_is_hindi_input]. *)
Definition has_devanagari (user_input : pyval) : E bool :=
  Ebind (py_iter user_input) (py_any (between 0x0900 0x097F)).

(** [not user_input or user_input.strip() == ""] *)
Definition is_blank (user_input : pyval) : E bool :=
  Eor (inr (py_not user_input))
      (Ebind (py_strip user_input) (fun s => inr (py_eq_str s []))).

(** Lines 68-73: the statements under [try] in [_is_hindi_input]. *)
Definition detect_devanagari (user_input : pyval) : M unit :=
  blank <- eval (is_blank user_input) ;;
  when blank (return_ (PyBool false)) ;;
  has_devanagari <- eval (has_devanagari user_input) ;;
  return_ (PyBool has_devanagari).

Definition _is_hindi_input (self : pyval) (user_input : pyval)
  : state -> E pyval * state :=
  def (
    try_except (detect_devanagari user_input)
    is_Exception
    (fun e =>
      logger_warning (lit "Hindi detection error: " ++ exc_text e) ;;
      return_ (PyBool false))).

(** The five ranges tested by [_is_urdu_script], in source order. *)
Definition in_arabic_ranges (char : pyval) : E bool :=
  Eor (between 0x0600 0x06FF char)       (* Arabic *)
 (Eor (between 0x0750 0x077F char)       (* Arabic Supplement *)
 (Eor (between 0x08A0 0x08FF char)       (* Arabic Extended-A *)
 (Eor (between 0xFB50 0xFDFF char)       (* Arabic Presentation Forms-A *)
      (between 0xFE70 0xFEFF char)))).   (* Arabic Presentation Forms-B *)

Definition has_arabic_script (text : pyval) : E bool :=
  Ebind (py_iter text) (py_any in_arabic_ranges).

(** Lines 82-95: the statements under [try] in [_is_urdu_script]. *)
Definition detect_arabic_script (text : pyval) : M unit :=
  blank <- eval (is_blank text) ;;
  when blank (return_ (PyBool false)) ;;
  has_arabic_script <- eval (has_arabic_script text) ;;
  return_ (PyBool has_arabic_script).

Definition _is_urdu_script (self : pyval) (text : pyval)
  : state -> E pyval * state :=
  def (
    try_except (detect_arabic_script text)
    is_Exception
    (fun e =>
      logger_warning (lit "Urdu script detection error: " ++ exc_text e) ;;
      return_ (PyBool false))).

Definition _should_respond_in_urdu (self : pyval) (user_input : pyval)
  : state -> E pyval * state :=
  def (
    r <- invoke (_is_hindi_input self user_input) ;;
    return_ r).

Definition fallback_msg : str :=
  lit "I'm having trouble responding. Please try again.".

Definition say (self : pyval) (message : str)
    (allow_interruptions add_to_chat_ctx : bool)
  : state -> E pyval * state :=
  def (
    try_except (
      is_hindi_input <- invoke (_is_hindi_input self (PyStr message)) ;;
      is_urdu_response <- invoke (_is_urdu_script self (PyStr message)) ;;
      let lang_indicator :=
        if py_truthy is_urdu_response then lit "Urdu"
        else if py_truthy is_hindi_input
             then lit "English (from Hindi input)"
             else lit "English" in
      logger_info (lit "Assistant responding in " ++ lang_indicator
                     ++ lit ": " ++ firstn 100 message ++ lit "...") ;;
      r <- call_ext (super_say message allow_interruptions
                       add_to_chat_ctx) ;;
      return_ r)
    is_Exception
    (fun e =>
      logger_error (lit "Error in say method: " ++ exc_text e) ;;
      try_except (
        r <- call_ext (super_say fallback_msg allow_interruptions
                         add_to_chat_ctx) ;;
        return_ r)
      is_BaseException
      (fun _ => ret tt))).

(* =================================================================== *)
(** ** async def entrypoint(ctx) *)
(* =================================================================== *)

(** Lines 163-185: the [stt] handle. *)
Definition init_stt (groq_key : pyval) : M pyval :=
  try_except (
    stt <- call_ext (groq_STT (lit "whisper-large-v3-turbo") groq_key
                       (lit "auto") true) ;;
    logger_info (lit "STT initialized") ;;
    ret stt)
  is_Exception
  (fun e =>
    try_except (
      stt <- call_ext (deepgram_STT (lit "nova-3") (lit "multi")
                         true true true) ;;
      logger_info (lit "STT initialized") ;;
      ret stt)
    is_Exception
    (fun e =>
      logger_error (lit "STT initialization failed: " ++ exc_text e) ;;
      return_ PyNone)).

(** Lines 189-199: the [llm] handle. *)
Definition init_llm : M pyval :=
  try_except (
    llm <- call_ext (groq_LLM (lit "qwen/qwen3-32b")) ;;
    logger_info (lit "LLM initialized with Urdu-optimized model") ;;
    ret llm)
  is_Exception
  (fun e =>
    logger_warning (lit "Urdu-optimized LLM failed, trying fallback: "
                      ++ exc_text e) ;;
    try_except (
      llm <- call_ext (groq_LLM (lit "llama-3.3-70b-versatile")) ;;
      logger_info (lit "LLM initialized with fallback model") ;;
      ret llm)
    is_Exception
    (fun fallback_e =>
      logger_error (lit "LLM initialization failed completely: "
                      ++ exc_text fallback_e) ;;
      return_ PyNone)).

(** Lines 201-224: the [tts] handle. *)
Definition init_tts (azure_key azure_region : pyval) : M pyval :=
  try_except (
    tts <- call_ext (azure_TTS azure_key azure_region
                       (lit "ur-PK-AsadNeural") (Some (lit "ur-PK"))
                       24000) ;;
    logger_info (lit "TTS initialized with Hindi voice") ;;
    ret tts)
  is_Exception
  (fun e =>
    logger_error (lit "TTS initialization failed: " ++ exc_text e) ;;
    try_except (
      tts <- call_ext (azure_TTS azure_key azure_region
                         (lit "en-US-AriaNeural") None 24000) ;;
      logger_info (lit "TTS initialized with fallback English voice") ;;
      ret tts)
    is_Exception
    (fun fallback_e =>
      logger_error (lit "TTS fallback failed: " ++ exc_text fallback_e) ;;
      return_ PyNone)).

(** Lines 226-240: the [vad] handle. *)
Definition init_vad : M pyval :=
  try_except (
    vad <- call_ext (silero_VAD_load (Some (1 # 2, 3 # 10)%Q)) ;;
    logger_info (lit "VAD initialized with multilingual settings") ;;
    ret vad)
  is_Exception
  (fun e =>
    try_except (
      vad <- call_ext (silero_VAD_load None) ;;
      logger_info (lit "VAD initialized with default settings") ;;
      ret vad)
    is_Exception
    (fun fallback_e =>
      logger_error (lit "VAD initialization failed completely: "
                      ++ exc_text fallback_e) ;;
      return_ PyNone)).

Definition greeting_instructions : str :=
  lit "Greet the user warmly in English, mentioning that you can speak both English and Urdu, and ask how you can help them today.".

Definition greeting_timeout : Q := 30.

(** Lines 262-271: the first greeting, under its timeout. *)
Definition greet (session : pyval) : M unit :=
  try_except (
    asyncio_wait_for
      (session_generate_reply session greeting_instructions)
      greeting_timeout ;;
    ret tt)
  is_TimeoutError
  (fun _ =>
    logger_warning (lit "Initial greeting generation timed out")).

Definition entrypoint (ctx : JobContext) : state -> E pyval * state :=
  def (
    try_except (
      logger_info (lit "Starting agent initialization...") ;;
      let azure_key := os_getenv (lit "AZURE_SPEECH_KEY") in
      let azure_region := os_getenv (lit "AZURE_SPEECH_REGION") in
      let groq_key := os_getenv (lit "GROQ_API_KEY") in
      let deepgram_key := os_getenv (lit "DEEPGRAM_API_KEY") in
      when (py_not azure_key || py_not azure_region) (
        logger_error
          (lit "Azure Speech credentials not found in environment variables") ;;
        return_ PyNone) ;;
      when (py_not groq_key) (
        logger_error
          (lit "Groq API key not found in environment variables") ;;
        return_ PyNone) ;;
      when (py_not deepgram_key) (
        logger_error
          (lit "Deepgram API key not found in environment variables") ;;
        return_ PyNone) ;;
      assistant <- __init__ ;;
      logger_info (lit "Assistant created successfully") ;;
      stt <- init_stt groq_key ;;
      llm <- init_llm ;;
      tts <- init_tts azure_key azure_region ;;
      vad <- init_vad ;;
      session <- call_ext (AgentSession stt llm tts vad) ;;
      logger_info (lit "Session created, starting...") ;;
      bvc <- call_ext noise_cancellation_BVC ;;
      options <- call_ext (RoomInputOptions bvc) ;;
      call_ext (session_start session (room ctx) assistant options) ;;
      logger_info
        (lit "Session started successfully - Hindi input " ++ [0x2192]
           ++ lit " Urdu script output pipeline") ;;
      greet session)
    is_Exception
    (fun e =>
      logger_error (lit "Entrypoint error: " ++ exc_text e) ;;
      raise e)).

End Runtime.

Arguments mkState {W} heap log trace waited world.

(* ===================================================================== *)
(** ** Vocabulary of the specification *)
(* ===================================================================== *)

(** Unicode blocks, as inclusive code point ranges. *)
Definition Devanagari_block : N * N := (0x0900, 0x097F).

Definition Arabic_blocks : list (N * N) :=
  [ (0x0600, 0x06FF)     (* Arabic *)
  ; (0x0750, 0x077F)     (* Arabic Supplement *)
  ; (0x08A0, 0x08FF)     (* Arabic Extended-A *)
  ; (0xFB50, 0xFDFF)     (* Arabic Presentation Forms-A *)
  ; (0xFE70, 0xFEFF) ].  (* Arabic Presentation Forms-B *)

Definition in_block (b : N * N) (c : codepoint) : Prop :=
  fst b <= c /\ c <= snd b.

Definition has_Devanagari (s : str) : Prop :=
  exists c, In c s /\ in_block Devanagari_block c.

Definition has_Arabic (s : str) : Prop :=
  exists c b, In c s /\ In b Arabic_blocks /\ in_block b c.

(** Empty, or made of whitespace only. *)
Definition whitespace_only (s : str) : Prop :=
  forall c, In c s -> py_isspace c = true.

(** The two tests of the detection methods, on one code point. *)
Definition devanagari_cp (c : codepoint) : bool :=
  (0x0900 <=? c) && (c <=? 0x097F).

Definition arabic_cp (c : codepoint) : bool :=
  ((0x0600 <=? c) && (c <=? 0x06FF))
  || (((0x0750 <=? c) && (c <=? 0x077F))
  || (((0x08A0 <=? c) && (c <=? 0x08FF))
  || (((0xFB50 <=? c) && (c <=? 0xFDFF))
  || ((0xFE70 <=? c) && (c <=? 0xFEFF))))).

(** The line [say] logs before it speaks. *)
Definition say_log_line (message : str) : str :=
  lit "Assistant responding in "
    ++ (if existsb arabic_cp message then lit "Urdu"
        else if existsb devanagari_cp message
             then lit "English (from Hindi input)"
             else lit "English")
    ++ lit ": " ++ firstn 100 message ++ lit "...".

Inductive script_tag := Devanagari | Arabic_script | No_script.

(** The script tag of a text, read off the two detection methods:
    Devanagari when [_is_hindi_input] answers [True], otherwise Arabic
    script when [_is_urdu_script] answers [True], otherwise none. *)
Definition classify_script {W} (self : pyval) (text : str) (st : state W)
  : script_tag :=
  match fst (_is_hindi_input self (PyStr text) st) with
  | inr (PyBool true) => Devanagari
  | _ =>
      match fst (_is_urdu_script self (PyStr text) st) with
      | inr (PyBool true) => Arabic_script
      | _ => No_script
      end
  end.

Inductive output_script := Arabic_required | Latin_required.

(** The routing decision: the answer of [_should_respond_in_urdu]. *)
Definition required_output_script {W} (self : pyval) (text : str)
    (st : state W) : output_script :=
  match fst (_should_respond_in_urdu self (PyStr text) st) with
  | inr (PyBool true) => Arabic_required
  | _ => Latin_required
  end.

(** The operations of one conversational turn on an [Assistant]. *)
Inductive turn_op :=
| Op_is_hindi_input (user_input : pyval)
| Op_is_urdu_script (text : pyval)
| Op_should_respond_in_urdu (user_input : pyval)
| Op_say (message : str) (allow_interruptions add_to_chat_ctx : bool).

Definition run_op {W} (ext : call -> W -> E pyval * W) (self : pyval)
    (op : turn_op) (st : state W) : state W :=
  match op with
  | Op_is_hindi_input v => snd (_is_hindi_input self v st)
  | Op_is_urdu_script v => snd (_is_urdu_script self v st)
  | Op_should_respond_in_urdu v => snd (_should_respond_in_urdu self v st)
  | Op_say m ai ac => snd (say ext self m ai ac st)
  end.

Definition run_ops {W} (ext : call -> W -> E pyval * W) (self : pyval)
    (ops : list turn_op) (st : state W) : state W :=
  fold_left (fun s op => run_op ext self op s) ops st.

(** The events (log lines) a run added, given the states before and
    after. *)
Definition new_events {W} (st st' : state W) : list event :=
  skipn (List.length (trace st)) (trace st').

Definition new_log {W} (st st' : state W) : list log_record :=
  skipn (List.length (log st)) (log st').

(** *** Runtimes used in the examples *)

(** A runtime that plays a script: each call consumes the next outcome;
    once the script is exhausted every call succeeds. *)
Definition scripted (c : call) (w : list (E pyval))
  : E pyval * list (E pyval) :=
  match w with
  | [] => (inr (PyObj 0), [])
  | r :: w' => (r, w')
  end.

(** A cancelled call ends at once, by the cancellation. *)
Definition cancels_at_once (c : call) (w : list (E pyval))
  : Q * E pyval * list (E pyval) :=
  (0%Q, inl (mkExn CancelledError []), w).





(** The empty script: every call succeeds. *)
Definition idle : list (E pyval) := [].

Definition env_of (l : list (str * str)) (k : str) : option str :=
  match find (fun kv => str_eqb (fst kv) k) l with
  | Some kv => Some (snd kv)
  | None => None
  end.

Definition env_full : str -> option str :=
  env_of [ (lit "AZURE_SPEECH_KEY", lit "k1")
         ; (lit "AZURE_SPEECH_REGION", lit "eastus")
         ; (lit "GROQ_API_KEY", lit "k2")
         ; (lit "DEEPGRAM_API_KEY", lit "k3") ].

Definition env_empty : str -> option str := env_of [].

(** The interpreter state in which the worker calls [entrypoint] or a
    first method: nothing allocated, logged, called or waited for yet. *)
Definition fresh {W} (w : W) : state W := mkState [] [] [] 0%Q w.

Definition boom : exn := mkExn RuntimeError (lit "boom").
Definition cancelled : exn := mkExn CancelledError [].

(** "आप कैसे हैं?" *)
Definition aap_kaise_hain : str :=
  [0x0906; 0x092A; 0x20; 0x0915; 0x0948; 0x0938; 0x0947; 0x20;
   0x0939; 0x0948; 0x0902; 0x3F].

(** "آپ" *)
Definition aap_urdu : str := [0x0622; 0x067E].

(** *** Bootstrap vocabulary *)

Inductive slot := STT | LLM | TTS | VAD.

(** The fallback chain of each slot: the constructor calls of
    [entrypoint], in the order they are tried. *)
Definition attempts (azure_key azure_region groq_key : pyval) (s : slot)
  : list call :=
  match s with
  | STT =>
      [ groq_STT (lit "whisper-large-v3-turbo") groq_key (lit "auto") true
      ; deepgram_STT (lit "nova-3") (lit "multi") true true true ]
  | LLM =>
      [ groq_LLM (lit "qwen/qwen3-32b")
      ; groq_LLM (lit "llama-3.3-70b-versatile") ]
  | TTS =>
      [ azure_TTS azure_key azure_region (lit "ur-PK-AsadNeural")
          (Some (lit "ur-PK")) 24000
      ; azure_TTS azure_key azure_region (lit "en-US-AriaNeural") None
          24000 ]
  | VAD =>
      [ silero_VAD_load (Some (1 # 2, 3 # 10)%Q)
      ; silero_VAD_load None ]
  end.

(** The block of [entrypoint] that fills a slot. *)
Definition init_slot {W} (ext : call -> W -> E pyval * W)
    (azure_key azure_region groq_key : pyval) (s : slot) : M W pyval :=
  match s with
  | STT => init_stt ext groq_key
  | LLM => init_llm ext
  | TTS => init_tts ext azure_key azure_region
  | VAD => init_vad ext
  end.


Definition succeeded (ev : event) : bool :=
  match snd ev with
  | inr _ => true
  | inl _ => false
  end.




Definition is_generate_reply (c : call) : bool :=
  match c with
  | session_generate_reply _ _ => true
  | _ => false
  end.

(** The three credential checks, in the order of lines 147-157. *)
Inductive credential := Azure_speech | Groq_api | Deepgram_api.

Definition absent (environ : str -> option str) (c : credential) : bool :=
  match c with
  | Azure_speech =>
      py_not (os_getenv environ (lit "AZURE_SPEECH_KEY"))
      || py_not (os_getenv environ (lit "AZURE_SPEECH_REGION"))
  | Groq_api => py_not (os_getenv environ (lit "GROQ_API_KEY"))
  | Deepgram_api => py_not (os_getenv environ (lit "DEEPGRAM_API_KEY"))
  end.

Definition missing_message (c : credential) : str :=
  match c with
  | Azure_speech =>
      lit "Azure Speech credentials not found in environment variables"
  | Groq_api => lit "Groq API key not found in environment variables"
  | Deepgram_api =>
      lit "Deepgram API key not found in environment variables"
  end.

Definition rank (c : credential) : nat :=
  match c with
  | Azure_speech => 0
  | Groq_api => 1
  | Deepgram_api => 2
  end.

(** The first credential, in check order, that is absent. *)
Definition first_absent (environ : str -> option str) : option credential :=
  find (absent environ) [Azure_speech; Groq_api; Deepgram_api].


(** Which attempt of which slot a constructor call is: the index in the
    slot's chain. *)
Definition attempt_index (c : call) : option (slot * nat) :=
  match c with
  | groq_STT _ _ _ _ => Some (STT, 0%nat)
  | deepgram_STT _ _ _ _ _ => Some (STT, 1%nat)
  | groq_LLM m =>
      Some (LLM, if str_eqb m (lit "qwen/qwen3-32b") then 0%nat else 1%nat)
  | azure_TTS _ _ _ language _ =>
      Some (TTS, match language with Some _ => 0%nat | None => 1%nat end)
  | silero_VAD_load durations =>
      Some (VAD, match durations with Some _ => 0%nat | None => 1%nat end)
  | _ => None
  end.








(** *** Vocabulary of the further properties *)

(** The values of the built-in types other than [str]. *)
Definition is_builtin_non_str (v : pyval) : bool :=
  match v with
  | PyNone | PyBool _ | PyInt _ | PyBytes _ | PyList _ => true
  | PyStr _ | PyObj _ | PyInstance _ => false
  end.

(** Whether a result is the answer [True]. *)
Definition answers_true (r : E pyval) : bool :=
  match r with
  | inr (PyBool true) => true
  | _ => false
  end.

Definition is_super_say (c : call) : bool :=
  match c with
  | super_say _ _ _ => true
  | _ => false
  end.

Definition is_say (op : turn_op) : bool :=
  match op with
  | Op_say _ _ _ => true
  | _ => false
  end.

(** The number of [say] calls among the operations. *)
Definition count_say (ops : list turn_op) : nat :=
  List.length (filter is_say ops).

Definition slot_rank (s : slot) : nat :=
  match s with
  | STT => 0
  | LLM => 1
  | TTS => 2
  | VAD => 3
  end.

(** The position of a call in the text of [entrypoint]: the eight
    constructor attempts, slot by slot, then the session calls. *)
Definition call_rank (c : call) : nat :=
  match c with
  | AgentSession _ _ _ _ => 8
  | noise_cancellation_BVC => 9
  | RoomInputOptions _ => 10
  | session_start _ _ _ _ => 11
  | session_generate_reply _ _ => 12
  | super_say _ _ _ => 13
  | _ =>
      match attempt_index c with
      | Some (s, i) => 2 * slot_rank s + i
      | None => 0
      end
  end%nat.

(** Strictly increasing. *)
Fixpoint increasing (l : list nat) : bool :=
  match l with
  | a :: (b :: _) as rest => (a <? b)%nat && increasing rest
  | _ => true
  end.

(** The first call satisfying [p], and the value it returned. *)
Definition first_call (p : call -> bool) (evs : list event) : option call :=
  option_map fst (find (fun ev => p (fst ev)) evs).

Definition returned (p : call -> bool) (evs : list event) : option pyval :=
  match find (fun ev => p (fst ev)) evs with
  | Some (_, inr v) => Some v
  | _ => None
  end.

Definition is_AgentSession (c : call) : bool :=
  match c with
  | AgentSession _ _ _ _ => true
  | _ => false
  end.

Definition is_BVC (c : call) : bool :=
  match c with
  | noise_cancellation_BVC => true
  | _ => false
  end.

Definition is_RoomInputOptions (c : call) : bool :=
  match c with
  | RoomInputOptions _ => true
  | _ => false
  end.

Definition is_session_start (c : call) : bool :=
  match c with
  | session_start _ _ _ _ => true
  | _ => false
  end.

Definition is_info (r : log_record) : bool :=
  match fst r with
  | INFO => true
  | _ => false
  end.

(** [s.startswith(p)] *)
Fixpoint starts_with (p s : str) : bool :=
  match p, s with
  | [], _ => true
  | x :: p', y :: s' => (x =? y) && starts_with p' s'
  | _ :: _, [] => false
  end.

(** The line written by the outer handler of [entrypoint]. *)
Definition is_entrypoint_error (r : log_record) : bool :=
  starts_with (lit "Entrypoint error: ") (snd r).

Definition timed_out : exn := mkExn TimeoutError (lit "upstream timeout").

(** Scripts for whole runs of [entrypoint]. *)
Definition nine_answers : list (E pyval) :=
  [ inr (PyObj 1); inr (PyObj 2); inr (PyObj 3); inr (PyObj 4)
  ; inr (PyObj 5); inr (PyObj 6); inr (PyObj 7); inr (PyObj 8)
  ; inr (PyObj 9) ].

Definition eight_answers_then_timeout : list (E pyval) :=
  [ inr (PyObj 1); inr (PyObj 2); inr (PyObj 3); inr (PyObj 4)
  ; inr (PyObj 5); inr (PyObj 6); inr (PyObj 7); inr (PyObj 8)
  ; inl timed_out ].

Definition env_other_key : str -> option str :=
  env_of [ (lit "AZURE_SPEECH_KEY", lit "k1")
         ; (lit "AZURE_SPEECH_REGION", lit "eastus")
         ; (lit "GROQ_API_KEY", lit "k2")
         ; (lit "DEEPGRAM_API_KEY", lit "another") ].

(** The environment variables behind each credential. *)
Definition credential_vars (c : credential) : list str :=
  match c with
  | Azure_speech => [lit "AZURE_SPEECH_KEY"; lit "AZURE_SPEECH_REGION"]
  | Groq_api => [lit "GROQ_API_KEY"]
  | Deepgram_api => [lit "DEEPGRAM_API_KEY"]
  end.

Definition env_empty_region : str -> option str :=
  env_of [ (lit "AZURE_SPEECH_KEY", lit "k1")
         ; (lit "AZURE_SPEECH_REGION", [])
         ; (lit "GROQ_API_KEY", lit "k2")
         ; (lit "DEEPGRAM_API_KEY", lit "k3") ].

(* ===================================================================== *)
(** * Properties *)
(* ===================================================================== *)

(* ===================================================================== *)
(** ** Script detection on [str] inputs *)
(* ===================================================================== *)

Ltac bool_to_prop :=
  repeat rewrite ?orb_true_iff, ?andb_true_iff, ?orb_false_iff,
    ?andb_false_iff, ?N.eqb_eq, ?N.leb_le, ?N.eqb_neq, ?N.leb_gt in *.

Lemma str_le_single (a b : codepoint) : str_le [a] [b] = (a <=? b).
Proof.
  simpl.
  destruct (N.ltb_spec a b), (N.eqb_spec a b), (N.leb_spec a b);
    try reflexivity; lia.
Qed.

Lemma between_char (lo hi c : codepoint) :
  between lo hi (PyStr [c]) = inr ((lo <=? c) && (c <=? hi)).
Proof.
  unfold between, py_le. rewrite !str_le_single. simpl.
  destruct (lo <=? c); reflexivity.
Qed.

Lemma in_arabic_ranges_char (c : codepoint) :
  in_arabic_ranges (PyStr [c]) = inr (arabic_cp c).
Proof.
  unfold in_arabic_ranges, arabic_cp, Eor. rewrite !between_char. simpl.
  repeat match goal with
         | |- context [if ?b then _ else _] => destruct b; simpl
         end; reflexivity.
Qed.

Lemma py_any_chars (p : pyval -> E bool) (f : codepoint -> bool) (s : str) :
  (forall c, p (PyStr [c]) = inr (f c)) ->
  py_any p (map (fun c => PyStr [c]) s) = inr (existsb f s).
Proof.
  intros Hp. induction s as [|c s IH]; simpl.
  - reflexivity.
  - rewrite Hp. simpl. destruct (f c); simpl; [reflexivity | exact IH].
Qed.

Lemma has_devanagari_str (s : str) :
  has_devanagari (PyStr s) = inr (existsb devanagari_cp s).
Proof.
  unfold has_devanagari. simpl. apply py_any_chars.
  intros c. apply between_char.
Qed.

Lemma has_arabic_script_str (s : str) :
  has_arabic_script (PyStr s) = inr (existsb arabic_cp s).
Proof.
  unfold has_arabic_script. simpl. apply py_any_chars.
  apply in_arabic_ranges_char.
Qed.

Lemma lstrip_spaces (s : str) :
  forallb py_isspace s = true -> lstrip s = [].
Proof.
  induction s as [|c s IH]; simpl; [reflexivity|].
  destruct (py_isspace c); simpl; [exact IH | discriminate].
Qed.

Lemma lstrip_not_spaces (s : str) :
  forallb py_isspace s = false -> lstrip s <> [].
Proof.
  induction s as [|c s IH]; simpl; [discriminate|].
  destruct (py_isspace c) eqn:Hc; simpl; [exact IH | discriminate].
Qed.

Lemma lstrip_keeps_non_space (s : str) :
  forallb py_isspace s = false -> forallb py_isspace (lstrip s) = false.
Proof.
  induction s as [|c s IH]; simpl; [discriminate|].
  destruct (py_isspace c) eqn:Hc; simpl; [exact IH|].
  intros _. rewrite Hc. reflexivity.
Qed.

Lemma forallb_rev {A} (f : A -> bool) (l : list A) :
  forallb f (rev l) = forallb f l.
Proof.
  induction l as [|a l IH]; simpl; [reflexivity|].
  rewrite forallb_app, IH. simpl. rewrite andb_true_r. apply andb_comm.
Qed.

Lemma strip_blank (s : str) :
  str_eqb (strip s) [] = forallb py_isspace s.
Proof.
  unfold strip, rstrip.
  destruct (forallb py_isspace s) eqn:Hs.
  - rewrite (lstrip_spaces s Hs). reflexivity.
  - apply lstrip_keeps_non_space in Hs.
    rewrite <- forallb_rev in Hs. apply lstrip_not_spaces in Hs.
    destruct (lstrip (rev (lstrip s))) as [|x l]; [congruence|].
    simpl. destruct (rev l ++ [x]) eqn:Heq; [|reflexivity].
    destruct (rev l); discriminate.
Qed.

Lemma is_blank_str (s : str) :
  is_blank (PyStr s) = inr (forallb py_isspace s).
Proof.
  unfold is_blank, Eor, py_not. simpl.
  destruct s as [|c s]; [reflexivity|].
  cbn [negb Ebind]. f_equal. apply strip_blank.
Qed.

Lemma space_not_devanagari (c : codepoint) :
  py_isspace c = true -> devanagari_cp c = false.
Proof.
  unfold py_isspace, devanagari_cp. intros H.
  destruct ((0x0900 <=? c) && (c <=? 0x097F)) eqn:E; [|reflexivity].
  bool_to_prop. lia.
Qed.

Lemma space_not_arabic (c : codepoint) :
  py_isspace c = true -> arabic_cp c = false.
Proof.
  unfold py_isspace, arabic_cp. intros H.
  match goal with |- ?b = false => destruct b eqn:E; [|reflexivity] end.
  bool_to_prop. lia.
Qed.

Lemma blank_existsb (f : codepoint -> bool) (s : str) :
  (forall c, py_isspace c = true -> f c = false) ->
  forallb py_isspace s = true -> existsb f s = false.
Proof.
  intros Hf. induction s as [|c s IH]; simpl; [reflexivity|].
  intros H. apply andb_true_iff in H as [Hc Hs].
  rewrite (Hf c Hc), (IH Hs). reflexivity.
Qed.

Section Detection.

Variable W : Type.

Lemma _is_hindi_input_str (self : pyval) (s : str) (st : state W) :
  _is_hindi_input self (PyStr s) st
  = (inr (PyBool (existsb devanagari_cp s)), st).
Proof.
  unfold _is_hindi_input, def, try_except, detect_devanagari, bind.
  rewrite is_blank_str, has_devanagari_str. simpl.
  destruct (forallb py_isspace s) eqn:Hs; simpl; [|reflexivity].
  rewrite (blank_existsb _ _ space_not_devanagari Hs). reflexivity.
Qed.

Lemma _is_urdu_script_str (self : pyval) (s : str) (st : state W) :
  _is_urdu_script self (PyStr s) st
  = (inr (PyBool (existsb arabic_cp s)), st).
Proof.
  unfold _is_urdu_script, def, try_except, detect_arabic_script, bind.
  rewrite is_blank_str, has_arabic_script_str. simpl.
  destruct (forallb py_isspace s) eqn:Hs; simpl; [|reflexivity].
  rewrite (blank_existsb _ _ space_not_arabic Hs). reflexivity.
Qed.

Lemma _should_respond_in_urdu_str (self : pyval) (s : str) (st : state W) :
  _should_respond_in_urdu self (PyStr s) st
  = (inr (PyBool (existsb devanagari_cp s)), st).
Proof.
  unfold _should_respond_in_urdu, def, bind, invoke.
  rewrite _is_hindi_input_str. reflexivity.
Qed.

End Detection.

Lemma devanagari_cp_block (s : str) :
  existsb devanagari_cp s = true <-> has_Devanagari s.
Proof.
  rewrite existsb_exists. unfold has_Devanagari, in_block, devanagari_cp.
  simpl. split; intros [c [Hin Hc]]; exists c; split; auto;
    bool_to_prop; lia.
Qed.

Lemma arabic_cp_block (s : str) :
  existsb arabic_cp s = true <-> has_Arabic s.
Proof.
  rewrite existsb_exists. unfold has_Arabic, in_block, arabic_cp.
  split.
  - intros [c [Hin Hc]]. bool_to_prop.
    destruct Hc as [Hc|[Hc|[Hc|[Hc|Hc]]]].
    + exists c, (0x0600, 0x06FF). simpl. intuition.
    + exists c, (0x0750, 0x077F). simpl. intuition.
    + exists c, (0x08A0, 0x08FF). simpl. intuition.
    + exists c, (0xFB50, 0xFDFF). simpl. intuition.
    + exists c, (0xFE70, 0xFEFF). simpl. intuition.
  - intros [c [b [Hin [Hb Hc]]]]. exists c. split; [exact Hin|].
    simpl in Hb. bool_to_prop.
    destruct Hb as [Hb|[Hb|[Hb|[Hb|[Hb|[]]]]]]; subst b; simpl in Hc; lia.
Qed.

Lemma whitespace_only_forallb (s : str) :
  whitespace_only s <-> forallb py_isspace s = true.
Proof. unfold whitespace_only. rewrite forallb_forall. reflexivity. Qed.

(* ===================================================================== *)
(** ** Detection on arbitrary values *)
(* ===================================================================== *)

Lemma is_blank_raises (v : pyval) (e : exn) :
  is_blank v = inl e -> is_Exception e = true.
Proof.
  unfold is_blank, Eor. simpl.
  destruct (py_not v); [discriminate|].
  destruct v; simpl; intros H; inversion H; reflexivity.
Qed.

Lemma py_le_raises (a b : pyval) (e : exn) :
  py_le a b = inl e -> is_Exception e = true.
Proof.
  unfold py_le. destruct a; try (intros H; inversion H; reflexivity).
  destruct b; intros H; inversion H; reflexivity.
Qed.

Lemma between_raises (lo hi : codepoint) (x : pyval) (e : exn) :
  between lo hi x = inl e -> is_Exception e = true.
Proof.
  unfold between, Ebind.
  destruct (py_le (PyStr [lo]) x) as [e1|b1] eqn:H1.
  - intros H. inversion H; subst. eapply py_le_raises; eauto.
  - destruct b1; [apply py_le_raises | discriminate].
Qed.

Lemma Eor_raises (a b : E bool) (e : exn) :
  (forall e', a = inl e' -> is_Exception e' = true) ->
  (forall e', b = inl e' -> is_Exception e' = true) ->
  Eor a b = inl e -> is_Exception e = true.
Proof.
  unfold Eor, Ebind. intros Ha Hb.
  destruct a as [e1|[|]]; intros H.
  - apply Ha. assumption.
  - discriminate.
  - apply Hb. assumption.
Qed.

Lemma in_arabic_ranges_raises (x : pyval) (e : exn) :
  in_arabic_ranges x = inl e -> is_Exception e = true.
Proof.
  unfold in_arabic_ranges.
  revert e.
  repeat (intros e; apply Eor_raises;
          [intros e'; apply between_raises | clear e]).
  intros e. apply between_raises.
Qed.

Lemma py_any_raises (p : pyval -> E bool) (items : list pyval) (e : exn) :
  (forall x e', p x = inl e' -> is_Exception e' = true) ->
  py_any p items = inl e -> is_Exception e = true.
Proof.
  intros Hp. induction items as [|x rest IH]; simpl; [discriminate|].
  unfold Ebind. destruct (p x) as [e1|[|]] eqn:Hx; intros H.
  - inversion H; subst. eapply Hp; eauto.
  - discriminate.
  - apply IH. assumption.
Qed.

Lemma py_iter_raises (v : pyval) (e : exn) :
  py_iter v = inl e -> is_Exception e = true.
Proof. destruct v; simpl; intros H; inversion H; reflexivity. Qed.

Lemma has_devanagari_raises (v : pyval) (e : exn) :
  has_devanagari v = inl e -> is_Exception e = true.
Proof.
  unfold has_devanagari, Ebind.
  destruct (py_iter v) as [e1|items] eqn:Hi; intros H.
  - inversion H; subst. eapply py_iter_raises; eauto.
  - eapply py_any_raises; [|exact H]. intros x e'. apply between_raises.
Qed.

Lemma has_arabic_script_raises (v : pyval) (e : exn) :
  has_arabic_script v = inl e -> is_Exception e = true.
Proof.
  unfold has_arabic_script, Ebind.
  destruct (py_iter v) as [e1|items] eqn:Hi; intros H.
  - inversion H; subst. eapply py_iter_raises; eauto.
  - eapply py_any_raises; [|exact H]. apply in_arabic_ranges_raises.
Qed.

Section DetectionTotal.

Variable W : Type.

(** The [try] block of a detector ends in a [return] of a [bool], or
    raises an [Exception]; in both cases it leaves the state alone. *)
Lemma detect_devanagari_cases (v : pyval) (st : state W) :
  (exists b, detect_devanagari v st = (Return (PyBool b), st))
  \/ (exists e, detect_devanagari v st = (Raise e, st)
                /\ is_Exception e = true).
Proof.
  unfold detect_devanagari, bind, eval.
  destruct (is_blank v) as [e|[|]] eqn:Hb; simpl.
  - right. exists e. split; [reflexivity|]. eapply is_blank_raises; eauto.
  - left. exists false. reflexivity.
  - destruct (has_devanagari v) as [e|b] eqn:Hd; simpl.
    + right. exists e. split; [reflexivity|].
      eapply has_devanagari_raises; eauto.
    + left. exists b. reflexivity.
Qed.

Lemma detect_arabic_script_cases (v : pyval) (st : state W) :
  (exists b, detect_arabic_script v st = (Return (PyBool b), st))
  \/ (exists e, detect_arabic_script v st = (Raise e, st)
                /\ is_Exception e = true).
Proof.
  unfold detect_arabic_script, bind, eval.
  destruct (is_blank v) as [e|[|]] eqn:Hb; simpl.
  - right. exists e. split; [reflexivity|]. eapply is_blank_raises; eauto.
  - left. exists false. reflexivity.
  - destruct (has_arabic_script v) as [e|b] eqn:Hd; simpl.
    + right. exists e. split; [reflexivity|].
      eapply has_arabic_script_raises; eauto.
    + left. exists b. reflexivity.
Qed.

(** C9. Both script predicates are total and never raise: on every
    value they return a [bool]; and whenever the detection under [try]
    raises, the error is caught, logged as a warning, and the answer is
    [False]. *)
Theorem C9_detection_never_raises (self v : pyval) (st : state W) :
  (exists b st', _is_hindi_input self v st = (inr (PyBool b), st'))
  /\ (exists b st', _is_urdu_script self v st = (inr (PyBool b), st'))
  /\ (forall e st1, detect_devanagari v st = (Raise e, st1) ->
        _is_hindi_input self v st
        = (inr (PyBool false),
           logged WARNING (lit "Hindi detection error: " ++ exc_text e) st))
  /\ (forall e st1, detect_arabic_script v st = (Raise e, st1) ->
        _is_urdu_script self v st
        = (inr (PyBool false),
           logged WARNING
             (lit "Urdu script detection error: " ++ exc_text e) st)).
Proof.
  unfold _is_hindi_input, _is_urdu_script, def, try_except.
  destruct (detect_devanagari_cases v st) as [[b Hb]|[e [He Hexc]]];
    destruct (detect_arabic_script_cases v st) as [[b' Hb']|[e' [He' Hexc']]];
    rewrite ?Hb, ?He, ?Hb', ?He', ?Hexc, ?Hexc';
    (split; [|split; [|split]]);
    try (do 2 eexists; reflexivity);
    intros e0 st1 H0; inversion H0; subst;
    rewrite ?Hexc, ?Hexc'; reflexivity.
Qed.

End DetectionTotal.

(** On an [int] the detection does raise ([AttributeError] for [strip]);
    the predicate still answers [False] and logs the warning. *)
Lemma C9_witness :
  detect_devanagari (PyInt 5) (fresh idle)
  = (Raise (mkExn AttributeError
              (lit "'int' object has no attribute 'strip'")), fresh [])
  /\ _is_hindi_input PyNone (PyInt 5) (fresh idle)
     = (inr (PyBool false),
        logged WARNING
          (lit "Hindi detection error: "
             ++ lit "'int' object has no attribute 'strip'") (fresh idle))
  /\ detect_arabic_script (PyBytes [0x20]) (fresh idle)
  = (Raise (mkExn TypeError
              (lit "'<=' not supported between instances of 'str' and 'int'")),
     fresh [])
  /\ _is_urdu_script PyNone (PyBytes [0x20]) (fresh idle)
     = (inr (PyBool false),
        logged WARNING
          (lit "Urdu script detection error: "
             ++ lit "'<=' not supported between instances of 'str' and 'int'")
          (fresh idle)).
Proof.
  split; [reflexivity|]. split.
  - apply (proj1 (proj2 (proj2
      (C9_detection_never_raises PyNone (PyInt 5) (fresh idle))))
      (mkExn AttributeError (lit "'int' object has no attribute 'strip'"))
      (fresh idle)).
    reflexivity.
  - split; [reflexivity|].
    apply (proj2 (proj2 (proj2
      (C9_detection_never_raises PyNone (PyBytes [0x20]) (fresh idle))))
      (mkExn TypeError
         (lit "'<=' not supported between instances of 'str' and 'int'"))
      (fresh idle)).
    reflexivity.
Defined.

(* ===================================================================== *)
(** ** Classification and routing *)
(* ===================================================================== *)

Section Routing.

Variable W : Type.

Lemma classify_script_eq (self : pyval) (text : str) (st : state W) :
  classify_script self text st
  = if existsb devanagari_cp text then Devanagari
    else if existsb arabic_cp text then Arabic_script else No_script.
Proof.
  unfold classify_script.
  rewrite _is_hindi_input_str, _is_urdu_script_str. simpl.
  destruct (existsb devanagari_cp text), (existsb arabic_cp text);
    reflexivity.
Qed.

(** C3. Script classification answers "no script" on an empty or
    whitespace-only string, Devanagari as soon as one code point of the
    string lies in the Devanagari block, and Arabic script when no code
    point is Devanagari and at least one lies in one of the five Arabic
    blocks.  One matching code point anywhere in the string suffices. *)
Theorem C3_classify_script (self : pyval) (text : str) (st : state W) :
  (whitespace_only text -> classify_script self text st = No_script)
  /\ (has_Devanagari text -> classify_script self text st = Devanagari)
  /\ (~ has_Devanagari text -> has_Arabic text ->
      classify_script self text st = Arabic_script).
Proof.
  rewrite classify_script_eq. repeat split.
  - intros Hw. apply whitespace_only_forallb in Hw.
    rewrite (blank_existsb _ _ space_not_devanagari Hw).
    rewrite (blank_existsb _ _ space_not_arabic Hw). reflexivity.
  - intros Hd. apply devanagari_cp_block in Hd. rewrite Hd. reflexivity.
  - intros Hn Ha. apply arabic_cp_block in Ha. rewrite Ha.
    destruct (existsb devanagari_cp text) eqn:Hd; [|reflexivity].
    apply devanagari_cp_block in Hd. contradiction.
Qed.

(** C4. The required output script is a function of the script
    classification of the inbound text alone: Arabic script exactly when
    the text classifies as Devanagari, Latin script otherwise.  The
    decision leaves the state untouched, so asking twice gives the same
    answer, and neither the receiver nor the state it is asked in
    changes it. *)
Theorem C4_required_output_script (self self' : pyval) (text : str)
    (st st' : state W) :
  required_output_script self text st
  = match classify_script self text st with
    | Devanagari => Arabic_required
    | _ => Latin_required
    end
  /\ snd (_should_respond_in_urdu self (PyStr text) st) = st
  /\ required_output_script self text
       (snd (_should_respond_in_urdu self (PyStr text) st))
     = required_output_script self text st
  /\ required_output_script self' text st'
     = required_output_script self text st.
Proof.
  unfold required_output_script.
  rewrite classify_script_eq, !_should_respond_in_urdu_str. simpl.
  rewrite ?_should_respond_in_urdu_str. simpl.
  repeat split.
  destruct (existsb devanagari_cp text), (existsb arabic_cp text);
    reflexivity.
Qed.

End Routing.

(** The three classifications on the inputs of the specification's
    scenarios. *)
Lemma C3_witness :
  classify_script PyNone (lit "  ") (fresh idle) = No_script
  /\ classify_script PyNone (lit "ok " ++ aap_kaise_hain) (fresh idle)
     = Devanagari
  /\ classify_script PyNone (lit "ok " ++ aap_urdu) (fresh idle)
     = Arabic_script.
Proof.
  pose proof (C3_classify_script PyNone (lit "  ") (fresh idle)) as H1.
  pose proof (C3_classify_script PyNone (lit "ok " ++ aap_kaise_hain)
                (fresh idle)) as H2.
  pose proof (C3_classify_script PyNone (lit "ok " ++ aap_urdu)
                (fresh idle)) as H3.
  split; [|split].
  - apply (proj1 H1). apply whitespace_only_forallb. reflexivity.
  - apply (proj1 (proj2 H2)). apply devanagari_cp_block. reflexivity.
  - apply (proj2 (proj2 H3)).
    + intros Hd. apply devanagari_cp_block in Hd. discriminate Hd.
    + apply arabic_cp_block. reflexivity.
Defined.

Example required_output_script_scenarios :
  required_output_script PyNone aap_kaise_hain (fresh idle) = Arabic_required
  /\ required_output_script PyNone (lit "Hello") (fresh idle) = Latin_required
  /\ required_output_script PyNone [] (fresh idle) = Latin_required
  /\ classify_script PyNone [] (fresh idle) = No_script.
Proof. repeat split. Qed.

(* ===================================================================== *)
(** ** The wrapped [say] *)
(* ===================================================================== *)

Lemma skipn_length_app {A} (l l' : list A) :
  skipn (List.length l) (l ++ l') = l'.
Proof. induction l as [|a l IH]; simpl; [reflexivity | exact IH]. Qed.

Section Say.

Variable W : Type.
Variable ext : call -> W -> E pyval * W.

(** [say], statement by statement. *)
Lemma say_unfold (self : pyval) (message : str) (ai ac : bool)
    (st : state W) :
  say ext self message ai ac st
  = let (r1, w1) := ext (super_say message ai ac) (world st) in
    let st1 :=
      mkState (heap st) (log st ++ [(INFO, say_log_line message)])
        (trace st ++ [(super_say message ai ac, r1)]) (waited st) w1 in
    match r1 with
    | inr v => (inr v, st1)
    | inl e =>
        if is_Exception e then
          let (r2, w2) := ext (super_say fallback_msg ai ac) w1 in
          (inr (match r2 with inr a => a | inl _ => PyNone end),
           mkState (heap st)
             ((log st ++ [(INFO, say_log_line message)])
                ++ [(ERROR, lit "Error in say method: " ++ exc_text e)])
             ((trace st ++ [(super_say message ai ac, r1)])
                ++ [(super_say fallback_msg ai ac, r2)])
             (waited st) w2)
        else (inl e, st1)
    end.
Proof.
  unfold say, def, try_except, bind, invoke.
  rewrite _is_hindi_input_str, _is_urdu_script_str.
  unfold logger_info, logger_error, logger, call_ext, return_, ret,
    say_log_line, is_BaseException.
  cbn [py_truthy world heap log trace waited].
  destruct (ext (super_say message ai ac) (world st)) as [[e|v] w1];
    [|reflexivity].
  destruct (is_Exception e); [|reflexivity].
  cbn [world heap log trace waited].
  destruct (ext (super_say fallback_msg ai ac) w1) as [[e2|v2] w2];
    reflexivity.
Qed.

(** C1 (amended). Whenever the call of the primitive on the real
    message returns or raises an instance of [Exception], [say] returns
    to its caller without raising, whatever the recovery call on the
    fallback phrase does (it may raise anything, [BaseException]
    included).  Either the primitive was called once and its
    acknowledgement is returned; or its failure was logged, the fallback
    phrase was tried once, and the result is the fallback's
    acknowledgement, or [None] when the fallback failed too. *)
Theorem C1_say_never_raises_on_Exception (self : pyval) (message : str)
    (ai ac : bool) (st : state W) :
  (forall e, fst (ext (super_say message ai ac) (world st)) = inl e ->
             is_Exception e = true) ->
  exists v st',
    say ext self message ai ac st = (inr v, st')
    /\ (new_events st st' = [(super_say message ai ac, inr v)]
        \/ exists e r,
             new_events st st'
             = [ (super_say message ai ac, inl e)
               ; (super_say fallback_msg ai ac, r) ]
             /\ In (ERROR, lit "Error in say method: " ++ exc_text e)
                  (new_log st st')
             /\ v = match r with inr a => a | inl _ => PyNone end).
Proof.
  intros Hexc. rewrite say_unfold. unfold new_events, new_log.
  destruct (ext (super_say message ai ac) (world st)) as [[e|v] w1].
  - rewrite (Hexc e eq_refl).
    destruct (ext (super_say fallback_msg ai ac) w1) as [r2 w2].
    do 2 eexists. split; [reflexivity|]. right. exists e, r2.
    cbn [trace log]. rewrite <- !app_assoc, !skipn_length_app.
    repeat split. simpl. auto.
  - do 2 eexists. split; [reflexivity|]. left.
    cbn [trace]. apply skipn_length_app.
Qed.

(** C8 (amended). When the primitive fails on the message with an
    instance of [Exception], exactly one recovery is attempted: the
    fallback phrase, with the flags of the original call; the caller
    gets the acknowledgement of that call when it succeeds (and [None]
    when it fails), never an exception. *)
Theorem C8_one_recovery_on_Exception (self : pyval) (message : str)
    (ai ac : bool) (st : state W) (e : exn) (w1 : W) :
  ext (super_say message ai ac) (world st) = (inl e, w1) ->
  is_Exception e = true ->
  exists st',
    say ext self message ai ac st
    = (inr (match fst (ext (super_say fallback_msg ai ac) w1) with
            | inr ack => ack
            | inl _ => PyNone
            end), st')
    /\ new_events st st'
       = [ (super_say message ai ac, inl e)
         ; (super_say fallback_msg ai ac,
            fst (ext (super_say fallback_msg ai ac) w1)) ]
    /\ world st' = snd (ext (super_say fallback_msg ai ac) w1).
Proof.
  intros H1 He. rewrite say_unfold, H1, He. unfold new_events.
  destruct (ext (super_say fallback_msg ai ac) w1) as [r2 w2].
  eexists. split; [reflexivity|]. cbn [trace world fst snd].
  rewrite <- !app_assoc, !skipn_length_app. split; reflexivity.
Qed.

Lemma say_heap (self : pyval) (message : str) (ai ac : bool)
    (st : state W) :
  heap (snd (say ext self message ai ac st)) = heap st.
Proof.
  rewrite say_unfold.
  destruct (ext (super_say message ai ac) (world st)) as [[e|v] w1];
    [|reflexivity].
  destruct (is_Exception e); [|reflexivity].
  destruct (ext (super_say fallback_msg ai ac) w1) as [r2 w2].
  reflexivity.
Qed.

Lemma _is_hindi_input_heap (self v : pyval) (st : state W) :
  heap (snd (_is_hindi_input self v st)) = heap st.
Proof.
  unfold _is_hindi_input, def, try_except.
  destruct (detect_devanagari_cases v st) as [[b Hb]|[e [He Hexc]]].
  - rewrite Hb. reflexivity.
  - rewrite He, Hexc. reflexivity.
Qed.

Lemma _is_urdu_script_heap (self v : pyval) (st : state W) :
  heap (snd (_is_urdu_script self v st)) = heap st.
Proof.
  unfold _is_urdu_script, def, try_except.
  destruct (detect_arabic_script_cases v st) as [[b Hb]|[e [He Hexc]]].
  - rewrite Hb. reflexivity.
  - rewrite He, Hexc. reflexivity.
Qed.

Lemma _should_respond_in_urdu_heap (self v : pyval) (st : state W) :
  heap (snd (_should_respond_in_urdu self v st)) = heap st.
Proof.
  unfold _should_respond_in_urdu, def, bind, invoke.
  pose proof (_is_hindi_input_heap self v st) as H.
  destruct (_is_hindi_input self v st) as [[e|r] st1]; exact H.
Qed.

Lemma run_op_heap (self : pyval) (op : turn_op) (st : state W) :
  heap (run_op ext self op st) = heap st.
Proof.
  destruct op; simpl.
  - apply _is_hindi_input_heap.
  - apply _is_urdu_script_heap.
  - apply _should_respond_in_urdu_heap.
  - apply say_heap.
Qed.

Lemma run_ops_heap (self : pyval) (ops : list turn_op) (st : state W) :
  heap (run_ops ext self ops st) = heap st.
Proof.
  unfold run_ops. revert st.
  induction ops as [|op ops IH]; intros st; simpl; [reflexivity|].
  rewrite IH. apply run_op_heap.
Qed.

(** C10. Construct an [Assistant], then run any sequence of script
    classifications, routing decisions and [say] calls on it: its
    [instructions], [user_language_preference] ("english") and
    [conversation_history] (empty) are still the constructor's values. *)
Theorem C10_turn_operations_keep_fields (INSTRUCTIONS : str)
    (ops : list turn_op) (st : state W) :
  exists addr st0 a,
    __init__ INSTRUCTIONS st = (Normal (PyInstance addr), st0)
    /\ nth_error (heap st0) addr
       = Some (mkAssistant INSTRUCTIONS (lit "english") [])
    /\ nth_error (heap (run_ops ext (PyInstance addr) ops st0)) addr
       = Some a
    /\ instructions a = INSTRUCTIONS
    /\ user_language_preference a = lit "english"
    /\ conversation_history a = [].
Proof.
  exists (List.length (heap st)). eexists. eexists.
  split; [reflexivity|]. rewrite run_ops_heap. cbn [heap].
  assert (Hn : nth_error
                 (heap st ++ [mkAssistant INSTRUCTIONS (lit "english") []])
                 (List.length (heap st))
               = Some (mkAssistant INSTRUCTIONS (lit "english") [])).
  { rewrite nth_error_app2 by apply Nat.le_refl.
    rewrite Nat.sub_diag. reflexivity. }
  repeat split; try exact Hn; reflexivity.
Qed.

End Say.

(** A cancellation delivered while the primitive is awaited is not an
    [Exception]: [say] lets it through to its caller. *)
Lemma C1_counterexample :
  fst (say scripted PyNone (lit "Hello") true true (fresh [inl cancelled]))
  = inl cancelled.
Proof. reflexivity. Qed.

Lemma C1_witness :
  exists v st',
    say scripted PyNone (lit "Hello") true true (fresh [inl boom; inl cancelled])
    = (inr v, st').
Proof.
  destruct (@C1_say_never_raises_on_Exception _ scripted PyNone
              (lit "Hello") true true (fresh [inl boom; inl cancelled]))
    as [v [st' [H _]]].
  - simpl. intros e He. inversion He. reflexivity.
  - exists v, st'. exact H.
Defined.

(** The same on the recovery side: after a cancellation no fallback
    phrase is spoken, although that call would have succeeded. *)
Lemma C8_counterexample :
  say scripted PyNone aap_urdu false true
    (fresh [inl cancelled; inr (PyObj 1)])
  = (inl cancelled,
     mkState [] [(INFO, say_log_line aap_urdu)]
       [(super_say aap_urdu false true, inl cancelled)] 0%Q
       [inr (PyObj 1)]).
Proof. reflexivity. Qed.

Lemma C8_witness :
  exists st',
    say scripted PyNone aap_urdu false true (fresh [inl boom; inr (PyObj 1)])
    = (inr (PyObj 1), st')
    /\ new_events (fresh [inl boom; inr (PyObj 1)]) st'
       = [ (super_say aap_urdu false true, inl boom)
         ; (super_say fallback_msg false true, inr (PyObj 1)) ].
Proof.
  destruct (@C8_one_recovery_on_Exception _ scripted PyNone aap_urdu
              false true (fresh [inl boom; inr (PyObj 1)]) boom
              [inr (PyObj 1)] eq_refl eq_refl)
    as [st' [H1 [H2 _]]].
  exists st'. split; [exact H1 | exact H2].
Defined.

(* ===================================================================== *)
(** ** Bootstrap *)
(* ===================================================================== *)

Arguments lit : simpl never.

Section Bootstrap.

Variable W : Type.
Variable ext : call -> W -> E pyval * W.
Variable duration : call -> W -> option Q.
Variable interrupt : call -> W -> Q * E pyval * W.
Variable environ : str -> option str.
Variable INSTRUCTIONS : str.

Lemma absent_first (c : credential) :
  absent environ c = true ->
  exists c', first_absent environ = Some c' /\ (rank c' <= rank c)%nat.
Proof.
  unfold first_absent. cbn [find]. intros Hc.
  destruct (absent environ Azure_speech) eqn:Ha.
  { exists Azure_speech. split; [reflexivity | simpl; lia]. }
  destruct (absent environ Groq_api) eqn:Hg.
  { exists Groq_api. split; [reflexivity|].
    destruct c; simpl; try lia. congruence. }
  destruct (absent environ Deepgram_api) eqn:Hd.
  { exists Deepgram_api. split; [reflexivity|].
    destruct c; simpl; try lia; congruence. }
  destruct c; congruence.
Qed.

Lemma entrypoint_first_absent (ctx : JobContext) (c : credential)
    (st : state W) :
  first_absent environ = Some c ->
  entrypoint ext duration interrupt environ INSTRUCTIONS ctx st
  = (inr PyNone,
     logged ERROR (missing_message c)
       (logged INFO (lit "Starting agent initialization...") st)).
Proof.
  unfold first_absent. simpl.
  unfold entrypoint, def, try_except, bind, when, logger_info,
    logger_error, logger, return_, logged.
  unfold absent.
  destruct (py_not (os_getenv environ (lit "AZURE_SPEECH_KEY"))
            || py_not (os_getenv environ (lit "AZURE_SPEECH_REGION"))).
  { intros H; inversion H; subst. reflexivity. }
  destruct (py_not (os_getenv environ (lit "GROQ_API_KEY"))).
  { intros H; inversion H; subst. reflexivity. }
  destruct (py_not (os_getenv environ (lit "DEEPGRAM_API_KEY"))).
  { intros H; inversion H; subst. reflexivity. }
  discriminate.
Qed.

(** C6 (amended). If a required credential is absent, bootstrap logs
    one error, the message of the first absent credential in the order
    of the checks (speech service, language model, speech recognition),
    and returns: nothing else is logged after the start line, no
    external call is made and no [Assistant] is created. *)
Theorem C6_first_absent_credential_reported (ctx : JobContext)
    (c : credential) (st : state W) :
  absent environ c = true ->
  exists c',
    first_absent environ = Some c'
    /\ (rank c' <= rank c)%nat
    /\ entrypoint ext duration interrupt environ INSTRUCTIONS ctx st
       = (inr PyNone,
          logged ERROR (missing_message c')
            (logged INFO (lit "Starting agent initialization...") st)).
Proof.
  intros Hc. destruct (absent_first c Hc) as [c' [Hf Hr]].
  exists c'. repeat split; auto. apply entrypoint_first_absent. exact Hf.
Qed.

End Bootstrap.

(** With an empty environment the language-model key is absent, yet the
    only error logged is the speech-service one. *)
Lemma C6_counterexample :
  absent env_empty Groq_api = true
  /\ new_log (fresh idle)
       (snd (entrypoint scripted (fun _ _ => None) cancels_at_once env_empty
               [] (mkJobContext PyNone) (fresh idle)))
     = [ (INFO, lit "Starting agent initialization...")
       ; (ERROR, missing_message Azure_speech) ]
  /\ ~ In (ERROR, missing_message Groq_api)
         (new_log (fresh idle)
            (snd (entrypoint scripted (fun _ _ => None) cancels_at_once
                    env_empty [] (mkJobContext PyNone) (fresh idle)))).
Proof.
  split; [reflexivity|]. split; [reflexivity|].
  vm_compute. intros [H|[H|[]]]; discriminate H.
Qed.

Lemma C6_witness :
  exists c',
    first_absent env_empty = Some c'
    /\ entrypoint scripted (fun _ _ => None) cancels_at_once env_empty []
         (mkJobContext PyNone) (fresh idle)
       = (inr PyNone,
          logged ERROR (missing_message c')
            (logged INFO (lit "Starting agent initialization...")
               (fresh idle))).
Proof.
  destruct (@C6_first_absent_credential_reported _ scripted
              (fun _ _ => None) cancels_at_once env_empty []
              (mkJobContext PyNone) Groq_api (fresh idle) eq_refl)
    as [c' [H1 [_ H2]]].
  exists c'. split; assumption.
Defined.

Ltac unfold_monad :=
  unfold def, try_except, bind, when, invoke, call_ext, asyncio_wait_for,
    logger_info, logger_warning, logger_error, logger, logged, ret, return_,
    raise, __init__ in *.

(** One step of symbolic execution: case analysis on the next thing the
    environment decides. *)
Ltac run_step ext :=
  match goal with
  | |- context [ext ?c ?w] =>
      let e := fresh "e" in
      let v := fresh "v" in
      let w' := fresh "w" in
      let H := fresh "Hcall" in
      destruct (ext c w) as [[e|v] w'] eqn:H
  | |- context [is_Exception ?e] =>
      let H := fresh "Hexc" in
      destruct (is_Exception e) eqn:H
  end;
  cbn [fst snd heap log trace waited world].

Section Slots.

Variable W : Type.
Variable ext : call -> W -> E pyval * W.

(** C5. For every slot, whatever the state the block starts in.  If
    the primary constructor succeeds, the block makes that one call and
    binds the slot to its handle: the fallback is not tried.  If the
    primary fails with an error and the fallback succeeds, the block
    makes exactly these two calls, in that order, and binds the slot to
    the fallback's handle.  And in every run in which some attempt
    succeeded, that attempt is the last call made for the slot, every call
    before it raised, the calls are the slot's chain taken in order, and
    the slot is bound to the handle that attempt produced. *)
Theorem C5_first_success_binds_slot (azure_key azure_region groq_key : pyval)
    (s : slot) (st : state W) :
  (forall h w1,
      ext (nth 0 (attempts azure_key azure_region groq_key s)
             noise_cancellation_BVC) (world st) = (inr h, w1) ->
      fst (init_slot ext azure_key azure_region groq_key s st) = Normal h
      /\ new_events st
           (snd (init_slot ext azure_key azure_region groq_key s st))
         = [ (nth 0 (attempts azure_key azure_region groq_key s)
                noise_cancellation_BVC, inr h) ]
      /\ world (snd (init_slot ext azure_key azure_region groq_key s st))
         = w1)
  /\ (forall e w1 h w2,
        ext (nth 0 (attempts azure_key azure_region groq_key s)
               noise_cancellation_BVC) (world st) = (inl e, w1) ->
        is_Exception e = true ->
        ext (nth 1 (attempts azure_key azure_region groq_key s)
               noise_cancellation_BVC) w1 = (inr h, w2) ->
        fst (init_slot ext azure_key azure_region groq_key s st) = Normal h
        /\ new_events st
             (snd (init_slot ext azure_key azure_region groq_key s st))
           = [ (nth 0 (attempts azure_key azure_region groq_key s)
                  noise_cancellation_BVC, inl e)
             ; (nth 1 (attempts azure_key azure_region groq_key s)
                  noise_cancellation_BVC, inr h) ]
        /\ world (snd (init_slot ext azure_key azure_region groq_key s st))
           = w2)
  /\ (existsb succeeded
        (new_events st
           (snd (init_slot ext azure_key azure_region groq_key s st)))
      = true ->
      exists failures c h,
        new_events st
          (snd (init_slot ext azure_key azure_region groq_key s st))
        = failures ++ [(c, inr h)]
        /\ existsb succeeded failures = false
        /\ map fst (failures ++ [(c, inr h)])
           = firstn (S (List.length failures))
               (attempts azure_key azure_region groq_key s)
        /\ fst (init_slot ext azure_key azure_region groq_key s st)
           = Normal h).
Proof.
  unfold new_events. split; [|split].
  - intros h w1 H1.
    destruct s; cbn [attempts nth] in H1 |- *;
      unfold init_slot, init_stt, init_llm, init_tts, init_vad;
      unfold_monad; cbn [fst snd heap log trace waited world];
      rewrite H1; cbn [fst snd heap log trace waited world];
      rewrite <- ?app_assoc, ?skipn_length_app; repeat split.
  - intros e w1 h w2 H1 He H2.
    destruct s; cbn [attempts nth] in H1, H2 |- *;
      unfold init_slot, init_stt, init_llm, init_tts, init_vad;
      unfold_monad; cbn [fst snd heap log trace waited world];
      rewrite H1; cbn [fst snd heap log trace waited world];
      rewrite He; cbn [fst snd heap log trace waited world];
      rewrite H2; cbn [fst snd heap log trace waited world];
      rewrite <- ?app_assoc, ?skipn_length_app; repeat split.
  - destruct s; unfold init_slot, init_stt, init_llm, init_tts, init_vad;
      unfold_monad; cbn [fst snd heap log trace waited world];
      repeat run_step ext;
      rewrite <- ?app_assoc, ?skipn_length_app; cbn [app];
      intros Hs; try discriminate Hs;
      match goal with
      | |- exists _ _ _, [(?c, inr ?h)] = _ /\ _ =>
          exists [], c, h; repeat split
      | |- exists _ _ _, [?f; (?c, inr ?h)] = _ /\ _ =>
          exists [f], c, h; repeat split
      end.
Qed.

End Slots.

Ltac run_step_in ext duration interrupt H :=
  match type of H with
  | context [py_not ?v] =>
      let Hn := fresh "Hnot" in destruct (py_not v) eqn:Hn
  | context [duration ?c ?w] =>
      let d := fresh "d" in
      let Hd := fresh "Hdur" in
      destruct (duration c w) as [d|] eqn:Hd
  | context [Qle_bool ?a ?b] =>
      let Hq := fresh "Hle" in destruct (Qle_bool a b) eqn:Hq
  | context [is_TimeoutError (mkExn ?c ?t)] =>
      let b := eval cbv in (is_TimeoutError (mkExn c t)) in
      change (is_TimeoutError (mkExn c t)) with b in H
  | context [is_Exception (mkExn ?c ?t)] =>
      let b := eval cbv in (is_Exception (mkExn c t)) in
      change (is_Exception (mkExn c t)) with b in H
  | context [interrupt ?c ?w] =>
      let delay := fresh "delay" in
      let e := fresh "e" in
      let v := fresh "v" in
      let w' := fresh "w" in
      let Hc := fresh "Hcancel" in
      destruct (interrupt c w) as [[delay [e|v]] w'] eqn:Hc
  | context [ext ?c ?w] =>
      let e := fresh "e" in
      let v := fresh "v" in
      let w' := fresh "w" in
      let Hc := fresh "Hcall" in
      destruct (ext c w) as [[e|v] w'] eqn:Hc
  | context [is_CancelledError ?e] =>
      let Hx := fresh "Hcancelled" in
      destruct (is_CancelledError e) eqn:Hx
  | context [is_TimeoutError ?e] =>
      let Ht := fresh "Htimeout" in destruct (is_TimeoutError e) eqn:Ht
  | context [is_Exception ?e] =>
      first [ match goal with
              | Hx : is_Exception e = _ |- _ => rewrite Hx in H
              end
            | let Hx := fresh "Hexc" in destruct (is_Exception e) eqn:Hx ]
  end;
  cbv beta iota zeta delta [fst snd heap log trace waited world orb] in H;
  cbn [app] in H.


Arguments is_Exception : simpl never.





Section BootstrapRuns.

Variable W : Type.
Variable ext : call -> W -> E pyval * W.
Variable duration : call -> W -> option Q.
Variable interrupt : call -> W -> Q * E pyval * W.
Variable environ : str -> option str.
Variable INSTRUCTIONS : str.

Local Abbreviation run ctx st :=
  (entrypoint ext duration interrupt environ INSTRUCTIONS ctx st).


Local Abbreviation chain s :=
  (attempts (os_getenv environ (lit "AZURE_SPEECH_KEY"))
     (os_getenv environ (lit "AZURE_SPEECH_REGION"))
     (os_getenv environ (lit "GROQ_API_KEY")) s).




End BootstrapRuns.


(** The primary constructor succeeds: one call.  It raises and the
    fallback succeeds: two calls, and the fallback's handle. *)
Lemma C5_witness :
  new_events (fresh [inr (PyObj 8)])
    (snd (init_slot scripted PyNone PyNone PyNone VAD
            (fresh [inr (PyObj 8)])))
  = [(silero_VAD_load (Some (1 # 2, 3 # 10)%Q), inr (PyObj 8))]
  /\ fst (init_slot scripted PyNone PyNone (PyStr (lit "k2")) STT
            (fresh [inl boom; inr (PyObj 9)]))
     = Normal (PyObj 9)
  /\ exists failures c,
       new_events (fresh [inl boom; inr (PyObj 9)])
         (snd (init_slot scripted PyNone PyNone (PyStr (lit "k2")) STT
                 (fresh [inl boom; inr (PyObj 9)])))
       = failures ++ [(c, inr (PyObj 9))].
Proof.
  destruct (@C5_first_success_binds_slot _ scripted PyNone PyNone PyNone VAD
              (fresh [inr (PyObj 8)])) as [Hprimary _].
  destruct (@C5_first_success_binds_slot _ scripted PyNone PyNone
              (PyStr (lit "k2")) STT (fresh [inl boom; inr (PyObj 9)]))
    as [_ [Hfallback Hrun]].
  destruct (Hprimary (PyObj 8) [] eq_refl) as [_ [H1 _]].
  destruct (Hfallback boom [inr (PyObj 9)] (PyObj 9) [] eq_refl eq_refl
              eq_refl) as [H2 _].
  destruct (Hrun eq_refl) as [failures [c [h [H3 [_ [_ H4]]]]]].
  split; [exact H1|]. split; [exact H2|].
  exists failures, c.
  rewrite H2 in H4. injection H4 as <-. exact H3.
Defined.



(* ===================================================================== *)
(** * Further properties *)
(* ===================================================================== *)

(* ===================================================================== *)
(** ** The detection methods *)
(* ===================================================================== *)

Lemma answers_true_iff (b : bool) : answers_true (inr (PyBool b)) = b.
Proof. destruct b; reflexivity. Qed.

Section DetectionMore.

Variable W : Type.

(** X1. On a [str], each detection method answers [True] exactly when
    the string has a code point in its script's blocks, the two answers
    being independent of each other; it logs nothing and leaves the state
    as it was. *)
Theorem detection_exact_on_str (self : pyval) (s : str) (st : state W) :
  (exists b, _is_hindi_input self (PyStr s) st = (inr (PyBool b), st)
             /\ (b = true <-> has_Devanagari s))
  /\ (exists b, _is_urdu_script self (PyStr s) st = (inr (PyBool b), st)
                /\ (b = true <-> has_Arabic s)).
Proof.
  split.
  - exists (existsb devanagari_cp s). split.
    + apply _is_hindi_input_str.
    + apply devanagari_cp_block.
  - exists (existsb arabic_cp s). split.
    + apply _is_urdu_script_str.
    + apply arabic_cp_block.
Qed.

(** X2. Detection distributes over concatenation: a text made of two
    parts is detected exactly when one of the parts is. *)
Theorem detection_concat (self : pyval) (a b : str) (st : state W) :
  answers_true (fst (_is_hindi_input self (PyStr (a ++ b)) st))
  = answers_true (fst (_is_hindi_input self (PyStr a) st))
    || answers_true (fst (_is_hindi_input self (PyStr b) st))
  /\ answers_true (fst (_is_urdu_script self (PyStr (a ++ b)) st))
     = answers_true (fst (_is_urdu_script self (PyStr a) st))
       || answers_true (fst (_is_urdu_script self (PyStr b) st)).
Proof.
  rewrite !_is_hindi_input_str, !_is_urdu_script_str. cbn [fst].
  rewrite !answers_true_iff, !existsb_app. split; reflexivity.
Qed.

(** X3. On a value of a built-in type other than [str] ([None], a
    [bool], an [int], [bytes], a [list]) both methods answer [False]:
    silently when the value is falsy ([None], [0], [False], empty
    [bytes] or [list]), and after exactly one warning when it is truthy.
    In particular [bytes] are never detected, whatever they encode. *)
Theorem detection_on_non_str (self v : pyval) (st : state W) :
  is_builtin_non_str v = true ->
  (exists st',
      _is_hindi_input self v st = (inr (PyBool false), st')
      /\ (py_truthy v = false -> st' = st)
      /\ (py_truthy v = true ->
          exists e, st' = logged WARNING
                            (lit "Hindi detection error: " ++ exc_text e) st))
  /\ (exists st',
      _is_urdu_script self v st = (inr (PyBool false), st')
      /\ (py_truthy v = false -> st' = st)
      /\ (py_truthy v = true ->
          exists e, st' = logged WARNING
                            (lit "Urdu script detection error: "
                               ++ exc_text e) st)).
Proof.
  intros Hv.
  destruct v as [|b|z|s|bs|l|id|addr]; try discriminate Hv.
  - split; eexists; (split; [reflexivity|]); split;
      [reflexivity | discriminate | reflexivity | discriminate].
  - destruct b; split; eexists; (split; [reflexivity|]); split;
      try reflexivity; try discriminate; intros _; eexists; reflexivity.
  - unfold _is_hindi_input, _is_urdu_script, def, try_except,
      detect_devanagari, detect_arabic_script, bind, eval, is_blank, Eor,
      Ebind, py_not, py_truthy.
    destruct (z =? 0)%Z; split; eexists; (split; [reflexivity|]); split;
      try reflexivity; try discriminate; intros _; eexists; reflexivity.
  - destruct bs as [|n bs]; split; eexists; (split; [reflexivity|]); split;
      try reflexivity; try discriminate; intros _; eexists; reflexivity.
  - destruct l as [|x l]; split; eexists; (split; [reflexivity|]); split;
      try reflexivity; try discriminate; intros _; eexists; reflexivity.
Qed.

End DetectionMore.

(** UTF-8 [bytes] of a Devanagari letter are not a [str]: the answer is
    [False], with a warning. *)
Lemma detection_on_non_str_witness :
  exists st',
    _is_hindi_input PyNone (PyBytes [0xE0; 0xA4; 0x86]) (fresh idle)
    = (inr (PyBool false), st')
    /\ exists e, st' = logged WARNING
                         (lit "Hindi detection error: " ++ exc_text e)
                         (fresh idle).
Proof.
  destruct (@detection_on_non_str _ PyNone (PyBytes [0xE0; 0xA4; 0x86])
              (fresh idle)) as [[st' [H1 [_ H2]]] _].
  - reflexivity.
  - exists st'. split; [exact H1 | apply H2; reflexivity].
Defined.

(* ===================================================================== *)
(** ** [say], beyond the claims *)
(* ===================================================================== *)

Section SayMore.

Variable W : Type.
Variable ext : call -> W -> E pyval * W.

(** X4. [say] never rewrites what it is asked to speak and never tries
    more than twice: the calls it makes are the primitive on the original
    message and flags, followed at most by the primitive on the fallback
    phrase with the same flags. *)
Theorem say_calls_at_most_two (self : pyval) (message : str) (ai ac : bool)
    (st : state W) :
  exists r1,
    new_events st (snd (say ext self message ai ac st))
    = [(super_say message ai ac, r1)]
    \/ exists r2,
         new_events st (snd (say ext self message ai ac st))
         = [ (super_say message ai ac, r1)
           ; (super_say fallback_msg ai ac, r2) ].
Proof.
  rewrite say_unfold. unfold new_events.
  destruct (ext (super_say message ai ac) (world st)) as [[e|v] w1].
  - destruct (is_Exception e).
    + destruct (ext (super_say fallback_msg ai ac) w1) as [r2 w2].
      exists (inl e). right. exists r2. cbn [snd trace].
      rewrite <- app_assoc. apply skipn_length_app.
    + exists (inl e). left. cbn [snd trace]. apply skipn_length_app.
  - exists (inr v). left. cbn [snd trace]. apply skipn_length_app.
Qed.

(** X5. [say] raises exactly when the call on the real message raises
    an exception that is not an [Exception], and it raises that very
    exception; the primitive was then called once and nothing but the
    announcement line was logged. *)
Theorem say_raises_iff (self : pyval) (message : str) (ai ac : bool)
    (st : state W) (e : exn) :
  (fst (say ext self message ai ac st) = inl e
   <-> fst (ext (super_say message ai ac) (world st)) = inl e
       /\ is_Exception e = false)
  /\ (fst (say ext self message ai ac st) = inl e ->
      new_events st (snd (say ext self message ai ac st))
      = [(super_say message ai ac, inl e)]
      /\ new_log st (snd (say ext self message ai ac st))
         = [(INFO, say_log_line message)]).
Proof.
  rewrite say_unfold. unfold new_events, new_log.
  destruct (ext (super_say message ai ac) (world st)) as [[e1|v] w1];
    cbn [fst].
  - destruct (is_Exception e1) eqn:He1.
    + destruct (ext (super_say fallback_msg ai ac) w1) as [r2 w2].
      cbn [fst]. split.
      * split; [discriminate|]. intros [H1 H2]. inversion H1; subst.
        congruence.
      * discriminate.
    + cbn [fst snd trace log]. rewrite !skipn_length_app. split.
      * split.
        -- intros H. inversion H; subst. split; [reflexivity | exact He1].
        -- intros [H _]. exact H.
      * intros H. inversion H; subst. split; reflexivity.
  - split.
    + split; [discriminate|]. intros [H _]. discriminate H.
    + discriminate.
Qed.

(** X6. When the fallback phrase fails too, [say] returns [None] and
    keeps silent about it: whatever the second exception is, a
    cancellation included, the only lines logged are the announcement and
    the error of the first failure. *)
Theorem say_swallows_second_failure (self : pyval) (message : str)
    (ai ac : bool) (st : state W) (e1 e2 : exn) (w1 w2 : W) :
  ext (super_say message ai ac) (world st) = (inl e1, w1) ->
  is_Exception e1 = true ->
  ext (super_say fallback_msg ai ac) w1 = (inl e2, w2) ->
  fst (say ext self message ai ac st) = inr PyNone
  /\ new_log st (snd (say ext self message ai ac st))
     = [ (INFO, say_log_line message)
       ; (ERROR, lit "Error in say method: " ++ exc_text e1) ]
  /\ world (snd (say ext self message ai ac st)) = w2.
Proof.
  intros H1 He H2. rewrite say_unfold, H1, He, H2. unfold new_log.
  cbn [fst snd log world]. rewrite <- app_assoc, skipn_length_app.
  repeat split.
Qed.

(** X7. The line [say] logs first names the language by looking at the
    outgoing text: "Urdu" as soon as the text has an Arabic-script code
    point, even next to Devanagari; otherwise "English (from Hindi
    input)" when it has a Devanagari code point, and "English" when it
    has neither.  The text is quoted up to its first 100 code points. *)
Theorem say_announces_language (self : pyval) (message : str) (ai ac : bool)
    (st : state W) :
  exists tag rest,
    new_log st (snd (say ext self message ai ac st))
    = (INFO,
       lit "Assistant responding in " ++ tag ++ lit ": "
         ++ firstn 100 message ++ lit "...") :: rest
    /\ (has_Arabic message -> tag = lit "Urdu")
    /\ (~ has_Arabic message -> has_Devanagari message ->
        tag = lit "English (from Hindi input)")
    /\ (~ has_Arabic message -> ~ has_Devanagari message ->
        tag = lit "English").
Proof.
  exists (if existsb arabic_cp message then lit "Urdu"
          else if existsb devanagari_cp message
               then lit "English (from Hindi input)"
               else lit "English").
  assert (Hlog : exists rest,
             new_log st (snd (say ext self message ai ac st))
             = (INFO, say_log_line message) :: rest).
  { rewrite say_unfold. unfold new_log.
    destruct (ext (super_say message ai ac) (world st)) as [[e|v] w1].
    - destruct (is_Exception e).
      + destruct (ext (super_say fallback_msg ai ac) w1) as [r2 w2].
        eexists. cbn [snd log]. rewrite <- app_assoc.
        rewrite skipn_length_app. reflexivity.
      + eexists. cbn [snd log]. rewrite skipn_length_app. reflexivity.
    - eexists. cbn [snd log]. rewrite skipn_length_app. reflexivity. }
  destruct Hlog as [rest Hlog]. exists rest. split; [exact Hlog|].
  pose proof (arabic_cp_block message) as Ha.
  pose proof (devanagari_cp_block message) as Hd.
  destruct (existsb arabic_cp message), (existsb devanagari_cp message);
    repeat split; intros; try reflexivity;
    try (exfalso; tauto);
    try match goal with
        | H : has_Arabic _ |- _ => apply Ha in H; discriminate H
        | H : has_Devanagari _ |- _ => apply Hd in H; discriminate H
        end.
Qed.

Lemma run_op_trace (self : pyval) (op : turn_op) (st : state W) :
  exists t,
    trace (run_op ext self op st) = trace st ++ t
    /\ (List.length t <= if is_say op then 2 else 0)%nat
    /\ forallb (fun ev => is_super_say (fst ev)) t = true.
Proof.
  destruct op as [v|v|v|m ai ac]; cbn [run_op is_say].
  - exists []. rewrite app_nil_r. repeat split; auto.
    unfold _is_hindi_input, def, try_except.
    destruct (detect_devanagari_cases v st) as [[b Hb]|[e [He Hexc]]].
    + rewrite Hb. reflexivity.
    + rewrite He, Hexc. reflexivity.
  - exists []. rewrite app_nil_r. repeat split; auto.
    unfold _is_urdu_script, def, try_except.
    destruct (detect_arabic_script_cases v st) as [[b Hb]|[e [He Hexc]]].
    + rewrite Hb. reflexivity.
    + rewrite He, Hexc. reflexivity.
  - exists []. rewrite app_nil_r. repeat split; auto.
    unfold _should_respond_in_urdu, def, bind, invoke, _is_hindi_input,
      def, try_except.
    destruct (detect_devanagari_cases v st) as [[b Hb]|[e [He Hexc]]].
    + rewrite Hb. reflexivity.
    + rewrite He, Hexc. reflexivity.
  - rewrite say_unfold.
    destruct (ext (super_say m ai ac) (world st)) as [[e|v] w1].
    + destruct (is_Exception e).
      * destruct (ext (super_say fallback_msg ai ac) w1) as [r2 w2].
        eexists. cbn [snd trace]. rewrite <- app_assoc.
        split; [reflexivity|]. split; [simpl; lia | reflexivity].
      * eexists. cbn [snd trace].
        split; [reflexivity|]. split; [simpl; lia | reflexivity].
    + eexists. cbn [snd trace].
      split; [reflexivity|]. split; [simpl; lia | reflexivity].
Qed.

Lemma run_ops_trace (self : pyval) (ops : list turn_op) (st : state W) :
  exists t,
    trace (run_ops ext self ops st) = trace st ++ t
    /\ (List.length t <= 2 * count_say ops)%nat
    /\ forallb (fun ev => is_super_say (fst ev)) t = true.
Proof.
  unfold run_ops, count_say. revert st.
  induction ops as [|op ops IH]; intros st; cbn [fold_left filter].
  - exists []. rewrite app_nil_r. repeat split; auto.
  - destruct (IH (run_op ext self op st)) as [t2 [Ht2 [Hl2 Hs2]]].
    destruct (run_op_trace self op st) as [t1 [Ht1 [Hl1 Hs1]]].
    exists (t1 ++ t2). rewrite Ht2, Ht1, <- app_assoc.
    split; [reflexivity|]. split.
    + rewrite length_app. destruct (is_say op); cbn [List.length]; lia.
    + rewrite forallb_app. apply andb_true_iff. split; assumption.
Qed.

(** X8. Over any sequence of turn operations the only external calls
    are calls of the speak primitive, at most two for each [say];
    classification and routing call nothing. *)
Theorem turn_operations_call_budget (self : pyval) (ops : list turn_op)
    (st : state W) :
  (List.length (new_events st (run_ops ext self ops st))
   <= 2 * count_say ops)%nat
  /\ forallb (fun ev => is_super_say (fst ev))
       (new_events st (run_ops ext self ops st)) = true.
Proof.
  destruct (run_ops_trace self ops st) as [t [Ht [Hl Hs]]].
  unfold new_events. rewrite Ht, skipn_length_app. split; assumption.
Qed.

End SayMore.

(** A cancellation on the real message passes through [say]. *)
Lemma say_raises_iff_witness :
  fst (say scripted PyNone (lit "Hi") true false (fresh [inl cancelled]))
  = inl cancelled
  /\ new_events (fresh [inl cancelled])
       (snd (say scripted PyNone (lit "Hi") true false
               (fresh [inl cancelled])))
     = [(super_say (lit "Hi") true false, inl cancelled)].
Proof.
  destruct (@say_raises_iff _ scripted PyNone (lit "Hi") true false
              (fresh [inl cancelled]) cancelled) as [Hiff Hrun].
  assert (H : fst (say scripted PyNone (lit "Hi") true false
                     (fresh [inl cancelled])) = inl cancelled).
  { apply (proj2 Hiff). split; reflexivity. }
  split; [exact H | exact (proj1 (Hrun H))].
Defined.

(** Both calls fail, the second by a cancellation: [None], and one
    error line only. *)
Lemma say_swallows_second_failure_witness :
  fst (say scripted PyNone (lit "Hi") true true
         (fresh [inl boom; inl cancelled]))
  = inr PyNone
  /\ new_log (fresh [inl boom; inl cancelled])
       (snd (say scripted PyNone (lit "Hi") true true
               (fresh [inl boom; inl cancelled])))
     = [ (INFO, say_log_line (lit "Hi"))
       ; (ERROR, lit "Error in say method: " ++ exc_text boom) ].
Proof.
  destruct (@say_swallows_second_failure _ scripted PyNone (lit "Hi") true
              true (fresh [inl boom; inl cancelled]) boom cancelled
              [inl cancelled] [] eq_refl eq_refl eq_refl) as [H1 [H2 _]].
  split; assumption.
Defined.

(** A text mixing both scripts is announced as Urdu. *)
Lemma say_announces_language_witness :
  exists rest,
    new_log (fresh idle)
      (snd (say scripted PyNone (aap_kaise_hain ++ aap_urdu) true true
              (fresh idle)))
    = (INFO,
       lit "Assistant responding in " ++ lit "Urdu" ++ lit ": "
         ++ firstn 100 (aap_kaise_hain ++ aap_urdu) ++ lit "...") :: rest.
Proof.
  destruct (@say_announces_language _ scripted PyNone
              (aap_kaise_hain ++ aap_urdu) true true (fresh idle))
    as [tag [rest [Hlog [Ha _]]]].
  exists rest. rewrite Hlog.
  assert (Harabic : has_Arabic (aap_kaise_hain ++ aap_urdu)).
  { apply arabic_cp_block. reflexivity. }
  rewrite (Ha Harabic). reflexivity.
Defined.

(* ===================================================================== *)
(** ** [entrypoint], beyond the claims *)
(* ===================================================================== *)

Arguments is_TimeoutError : simpl never.

Section SlotLogs.

Variable W : Type.
Variable ext : call -> W -> E pyval * W.

(** X9. When the primary attempt of a slot fails with an error and the
    fallback succeeds, what the log keeps of the failure depends on the
    slot: nothing for STT and VAD (one INFO line for the success), a
    WARNING for the LLM, an ERROR for the TTS. *)
Theorem recovered_failure_log_levels (azure_key azure_region groq_key : pyval)
    (s : slot) (st : state W) (e : exn) (h : pyval) (w1 w2 : W) :
  ext (nth 0 (attempts azure_key azure_region groq_key s)
         noise_cancellation_BVC) (world st) = (inl e, w1) ->
  is_Exception e = true ->
  ext (nth 1 (attempts azure_key azure_region groq_key s)
         noise_cancellation_BVC) w1 = (inr h, w2) ->
  fst (init_slot ext azure_key azure_region groq_key s st) = Normal h
  /\ map fst
       (new_log st (snd (init_slot ext azure_key azure_region groq_key s st)))
     = match s with
       | STT | VAD => [INFO]
       | LLM => [WARNING; INFO]
       | TTS => [ERROR; INFO]
       end.
Proof.
  intros H1 He H2. unfold new_log.
  destruct s; cbn [attempts nth] in H1, H2;
    unfold init_slot, init_stt, init_llm, init_tts, init_vad;
    unfold_monad; cbn [fst snd heap log trace waited world];
    rewrite H1; cbn [fst snd heap log trace waited world];
    rewrite He; cbn [fst snd heap log trace waited world];
    rewrite H2; cbn [fst snd heap log trace waited world];
    rewrite <- ?app_assoc, ?skipn_length_app; split; reflexivity.
Qed.

End SlotLogs.

Lemma recovered_failure_log_levels_witness :
  map fst
    (new_log (fresh [inl boom; inr (PyObj 2)])
       (snd (init_slot scripted PyNone PyNone PyNone STT
               (fresh [inl boom; inr (PyObj 2)]))))
  = [INFO]
  /\ map fst
       (new_log (fresh [inl boom; inr (PyObj 2)])
          (snd (init_slot scripted PyNone PyNone PyNone TTS
                  (fresh [inl boom; inr (PyObj 2)]))))
     = [ERROR; INFO].
Proof.
  split.
  - exact (proj2 (@recovered_failure_log_levels _ scripted PyNone PyNone
                    PyNone STT (fresh [inl boom; inr (PyObj 2)]) boom
                    (PyObj 2) [inr (PyObj 2)] [] eq_refl eq_refl eq_refl)).
  - exact (proj2 (@recovered_failure_log_levels _ scripted PyNone PyNone
                    PyNone TTS (fresh [inl boom; inr (PyObj 2)]) boom
                    (PyObj 2) [inr (PyObj 2)] [] eq_refl eq_refl eq_refl)).
Defined.

Section EntrypointMore.

Variable W : Type.
Variable ext : call -> W -> E pyval * W.
Variable duration : call -> W -> option Q.
Variable interrupt : call -> W -> Q * E pyval * W.
Variable environ : str -> option str.
Variable INSTRUCTIONS : str.

Local Abbreviation run ctx st :=
  (entrypoint ext duration interrupt environ INSTRUCTIONS ctx st).

(** Every run of [entrypoint] from a fresh state, path by path: order of
    the calls, wiring of the session, raised exceptions, an upstream
    timeout, the run without failure. *)
Lemma entrypoint_run_facts_more (ctx : JobContext) (w : W) :
  increasing (map call_rank (map fst (trace (snd (run ctx (fresh w))))))
  = true
  /\ ((forall session r agent options,
         first_call is_session_start (trace (snd (run ctx (fresh w))))
         = Some (session_start session r agent options) ->
         returned is_AgentSession (trace (snd (run ctx (fresh w))))
         = Some session
         /\ r = room ctx
         /\ agent = PyInstance 0
         /\ nth_error (heap (snd (run ctx (fresh w)))) 0
            = Some (mkAssistant INSTRUCTIONS (lit "english") [])
         /\ returned is_RoomInputOptions (trace (snd (run ctx (fresh w))))
            = Some options)
      /\ (forall nc,
            first_call is_RoomInputOptions
              (trace (snd (run ctx (fresh w))))
            = Some (RoomInputOptions nc) ->
            returned is_BVC (trace (snd (run ctx (fresh w)))) = Some nc)
      /\ (forall session instr,
            first_call is_generate_reply (trace (snd (run ctx (fresh w))))
            = Some (session_generate_reply session instr) ->
            returned is_AgentSession (trace (snd (run ctx (fresh w))))
            = Some session
            /\ instr = greeting_instructions
            /\ exists v,
                 returned is_session_start
                   (trace (snd (run ctx (fresh w)))) = Some v))
  /\ (forall e,
        fst (run ctx (fresh w)) = inl e ->
        (exists c,
            last (trace (snd (run ctx (fresh w))))
              (noise_cancellation_BVC, inr PyNone) = (c, inl e)
            /\ (is_Exception e = true -> attempt_index c = None))
        /\ (is_Exception e = true ->
            last (log (snd (run ctx (fresh w)))) (INFO, [])
            = (ERROR, lit "Entrypoint error: " ++ exc_text e))
        /\ (is_Exception e = false ->
            existsb is_entrypoint_error (log (snd (run ctx (fresh w))))
            = false))
  /\ (forall c e,
        last (trace (snd (run ctx (fresh w))))
          (noise_cancellation_BVC, inr PyNone) = (c, inl e) ->
        is_generate_reply c = true ->
        is_TimeoutError e = true ->
        fst (run ctx (fresh w)) = inr PyNone
        /\ last (log (snd (run ctx (fresh w)))) (INFO, [])
           = (WARNING, lit "Initial greeting generation timed out"))
  /\ (forallb succeeded (trace (snd (run ctx (fresh w)))) = true ->
      trace (snd (run ctx (fresh w))) <> [] ->
      fst (run ctx (fresh w)) = inr PyNone
      /\ map call_rank (map fst (trace (snd (run ctx (fresh w)))))
         = [0; 2; 4; 6; 8; 9; 10; 11; 12]%nat
      /\ forallb is_info (log (snd (run ctx (fresh w)))) = true).
Proof.
  destruct (entrypoint ext duration interrupt environ INSTRUCTIONS ctx
              (fresh w)) as [res st'] eqn:Hrun.
  unfold entrypoint, greet, init_stt, init_llm, init_tts, init_vad, fresh
    in Hrun.
  unfold_monad.
  set (ak := os_getenv environ (lit "AZURE_SPEECH_KEY")) in *.
  set (ar := os_getenv environ (lit "AZURE_SPEECH_REGION")) in *.
  set (gk := os_getenv environ (lit "GROQ_API_KEY")) in *.
  set (dk := os_getenv environ (lit "DEEPGRAM_API_KEY")) in *.
  clearbody ak ar gk dk.
  cbv beta iota zeta delta [fst snd heap log trace waited world orb]
    in Hrun.
  cbn [app] in Hrun.
  repeat run_step_in ext duration interrupt Hrun.
  all: injection Hrun as <- <-;
    cbv beta iota zeta delta [fst snd heap log trace waited world].
  all: split; [reflexivity|].
  all: split;
    [ split; [|split];
      [ intros session r agent options; cbn; intros H;
        try discriminate H; injection H as <- <- <- <-; repeat split
      | intros nc; cbn; intros H;
        try discriminate H; injection H as <-; reflexivity
      | intros session instr; cbn; intros H;
        try discriminate H; injection H as <- <-;
        (split; [reflexivity|]); (split; [reflexivity|]);
        eexists; reflexivity ]
    | ].
  all: split;
    [ intros raised_e He; try discriminate He; injection He as <-;
      (split;
       [ eexists; split;
         [ reflexivity | intros Hx; first [reflexivity | congruence] ]
       | split;
         [ intros Hx; first [reflexivity | congruence]
         | intros Hx; first [congruence | vm_compute; reflexivity] ] ])
    | ].
  all: split;
    [ intros last_c last_e Hl Hg Ht; cbn in Hl; try discriminate Hl;
      injection Hl as <- <-; try discriminate Hg; try congruence;
      try (vm_compute in Ht; discriminate Ht); split; reflexivity
    | ].
  all: intros Hs Hne; cbn in Hs; try discriminate Hs;
    try (exfalso; apply Hne; reflexivity); repeat split.
Qed.

(** X10. In every run the external calls follow the order of the text
    and none is made twice: the constructor attempts slot by slot (STT,
    LLM, TTS, VAD; primary before fallback), then the session, the noise
    cancellation, the room options, the start and the greeting. *)
Theorem entrypoint_calls_in_order (ctx : JobContext) (w : W) :
  increasing (map call_rank (map fst (trace (snd (run ctx (fresh w))))))
  = true.
Proof. exact (proj1 (entrypoint_run_facts_more ctx w)). Qed.

(** X11. The session is wired from what bootstrap produced: it is
    started on the session [AgentSession] returned, in the room of the
    job, with the [Assistant] created at the beginning (still holding its
    constructor values at the end of the run) and the options built from
    the noise cancellation; the greeting is asked of that same session,
    after the start has returned, with the fixed instructions. *)
Theorem entrypoint_session_wiring (ctx : JobContext) (w : W) :
  (forall session r agent options,
      first_call is_session_start (trace (snd (run ctx (fresh w))))
      = Some (session_start session r agent options) ->
      returned is_AgentSession (trace (snd (run ctx (fresh w))))
      = Some session
      /\ r = room ctx
      /\ agent = PyInstance 0
      /\ nth_error (heap (snd (run ctx (fresh w)))) 0
         = Some (mkAssistant INSTRUCTIONS (lit "english") [])
      /\ returned is_RoomInputOptions (trace (snd (run ctx (fresh w))))
         = Some options)
  /\ (forall nc,
        first_call is_RoomInputOptions (trace (snd (run ctx (fresh w))))
        = Some (RoomInputOptions nc) ->
        returned is_BVC (trace (snd (run ctx (fresh w)))) = Some nc)
  /\ (forall session instr,
        first_call is_generate_reply (trace (snd (run ctx (fresh w))))
        = Some (session_generate_reply session instr) ->
        returned is_AgentSession (trace (snd (run ctx (fresh w))))
        = Some session
        /\ instr = greeting_instructions
        /\ exists v,
             returned is_session_start (trace (snd (run ctx (fresh w))))
             = Some v).
Proof. exact (proj1 (proj2 (entrypoint_run_facts_more ctx w))). Qed.

(** X12. When [entrypoint] raises, it raises the exception of the last
    call it made, unchanged.  If that is an [Exception], the call was not
    a constructor attempt (construction errors never reach the host) and
    the last line logged is "Entrypoint error: " with its text; if it is
    not, no such line was logged. *)
Theorem entrypoint_reraises_last_failure (ctx : JobContext) (w : W)
    (e : exn) :
  fst (run ctx (fresh w)) = inl e ->
  (exists c,
      last (trace (snd (run ctx (fresh w))))
        (noise_cancellation_BVC, inr PyNone) = (c, inl e)
      /\ (is_Exception e = true -> attempt_index c = None))
  /\ (is_Exception e = true ->
      last (log (snd (run ctx (fresh w)))) (INFO, [])
      = (ERROR, lit "Entrypoint error: " ++ exc_text e))
  /\ (is_Exception e = false ->
      existsb is_entrypoint_error (log (snd (run ctx (fresh w)))) = false).
Proof.
  exact (proj1 (proj2 (proj2 (entrypoint_run_facts_more ctx w))) e).
Qed.

(** X13. A [TimeoutError] raised by the greeting call itself, before
    the 30 have elapsed, is handled like the timeout of the wait: the
    warning is logged and [entrypoint] returns normally. *)
Theorem upstream_timeout_handled_as_timeout (ctx : JobContext) (w : W)
    (c : call) (e : exn) :
  last (trace (snd (run ctx (fresh w))))
    (noise_cancellation_BVC, inr PyNone) = (c, inl e) ->
  is_generate_reply c = true ->
  is_TimeoutError e = true ->
  fst (run ctx (fresh w)) = inr PyNone
  /\ last (log (snd (run ctx (fresh w)))) (INFO, [])
     = (WARNING, lit "Initial greeting generation timed out").
Proof.
  exact (proj1 (proj2 (proj2 (proj2 (entrypoint_run_facts_more ctx w))))
           c e).
Qed.

(** X14. A run in which calls were made and none failed goes through
    the whole of [entrypoint]: it returns normally, having made exactly
    the four primary attempts (no fallback) and the five session calls,
    and logged nothing above INFO. *)
Theorem entrypoint_without_failure (ctx : JobContext) (w : W) :
  forallb succeeded (trace (snd (run ctx (fresh w)))) = true ->
  trace (snd (run ctx (fresh w))) <> [] ->
  fst (run ctx (fresh w)) = inr PyNone
  /\ map call_rank (map fst (trace (snd (run ctx (fresh w)))))
     = [0; 2; 4; 6; 8; 9; 10; 11; 12]%nat
  /\ forallb is_info (log (snd (run ctx (fresh w)))) = true.
Proof.
  exact (proj2 (proj2 (proj2 (proj2 (entrypoint_run_facts_more ctx w))))).
Qed.

(** X15. Of the speech-recognition key [entrypoint] uses only whether it
    is set: it is never handed to a constructor, so two environments that
    agree on every other variable and on the presence of that key give
    the same run. *)
Theorem deepgram_key_value_unused (environ' : str -> option str)
    (ctx : JobContext) (st : state W) :
  (forall k, k <> lit "DEEPGRAM_API_KEY" -> environ k = environ' k) ->
  py_not (os_getenv environ (lit "DEEPGRAM_API_KEY"))
  = py_not (os_getenv environ' (lit "DEEPGRAM_API_KEY")) ->
  entrypoint ext duration interrupt environ INSTRUCTIONS ctx st
  = entrypoint ext duration interrupt environ' INSTRUCTIONS ctx st.
Proof.
  intros Hsame Hdg. unfold entrypoint. cbv zeta. rewrite Hdg.
  assert (H1 : os_getenv environ (lit "AZURE_SPEECH_KEY")
               = os_getenv environ' (lit "AZURE_SPEECH_KEY")).
  { unfold os_getenv. rewrite Hsame; [reflexivity | discriminate]. }
  assert (H2 : os_getenv environ (lit "AZURE_SPEECH_REGION")
               = os_getenv environ' (lit "AZURE_SPEECH_REGION")).
  { unfold os_getenv. rewrite Hsame; [reflexivity | discriminate]. }
  assert (H3 : os_getenv environ (lit "GROQ_API_KEY")
               = os_getenv environ' (lit "GROQ_API_KEY")).
  { unfold os_getenv. rewrite Hsame; [reflexivity | discriminate]. }
  rewrite H1, H2, H3. reflexivity.
Qed.

End EntrypointMore.

Lemma str_eqb_eq (a b : str) : str_eqb a b = true -> a = b.
Proof.
  revert b. induction a as [|x a IH]; intros [|y b]; simpl;
    try discriminate; [reflexivity|].
  intros H. apply andb_true_iff in H as [Hx Hab].
  apply N.eqb_eq in Hx. subst y. f_equal. apply IH. exact Hab.
Qed.

(** *** Runs used as witnesses *)

(** Nine calls succeed with distinct results; the greeting takes one
    time unit. *)
Lemma entrypoint_session_wiring_witness :
  returned is_AgentSession
    (trace
       (snd (entrypoint scripted (fun _ _ => Some 1%Q) cancels_at_once
               env_full [] (mkJobContext (PyObj 77)) (fresh nine_answers))))
  = Some (PyObj 5)
  /\ returned is_BVC
       (trace
          (snd (entrypoint scripted (fun _ _ => Some 1%Q) cancels_at_once
                  env_full [] (mkJobContext (PyObj 77))
                  (fresh nine_answers))))
     = Some (PyObj 6).
Proof.
  destruct (@entrypoint_session_wiring _ scripted (fun _ _ => Some 1%Q)
              cancels_at_once env_full [] (mkJobContext (PyObj 77))
              nine_answers) as [Hstart [Hopts _]].
  split.
  - exact (proj1 (Hstart (PyObj 5) (PyObj 77) (PyInstance 0) (PyObj 7)
                    eq_refl)).
  - exact (Hopts (PyObj 6) eq_refl).
Defined.

(** The session constructor raises an error. *)
Lemma entrypoint_reraises_last_failure_witness :
  last (log
          (snd (entrypoint scripted (fun _ _ => Some 1%Q) cancels_at_once
                  env_full [] (mkJobContext PyNone)
                  (fresh [inr (PyObj 1); inr (PyObj 2); inr (PyObj 3);
                          inr (PyObj 4); inl boom]))))
    (INFO, [])
  = (ERROR, lit "Entrypoint error: " ++ exc_text boom).
Proof.
  destruct (@entrypoint_reraises_last_failure _ scripted
              (fun _ _ => Some 1%Q) cancels_at_once env_full []
              (mkJobContext PyNone)
              [inr (PyObj 1); inr (PyObj 2); inr (PyObj 3); inr (PyObj 4);
               inl boom] boom eq_refl) as [_ [H _]].
  apply H. reflexivity.
Defined.

(** The greeting raises [TimeoutError] after one time unit. *)
Lemma upstream_timeout_handled_as_timeout_witness :
  fst (entrypoint scripted (fun _ _ => Some 1%Q) cancels_at_once env_full []
         (mkJobContext PyNone) (fresh eight_answers_then_timeout))
  = inr PyNone.
Proof.
  exact (proj1 (@upstream_timeout_handled_as_timeout _ scripted
                  (fun _ _ => Some 1%Q) cancels_at_once env_full []
                  (mkJobContext PyNone) eight_answers_then_timeout
                  (session_generate_reply (PyObj 5) greeting_instructions)
                  timed_out eq_refl eq_refl eq_refl)).
Defined.

Lemma entrypoint_without_failure_witness :
  forallb is_info
    (log
       (snd (entrypoint scripted (fun _ _ => Some 1%Q) cancels_at_once
               env_full [] (mkJobContext PyNone) (fresh nine_answers))))
  = true.
Proof.
  destruct (@entrypoint_without_failure _ scripted (fun _ _ => Some 1%Q)
              cancels_at_once env_full [] (mkJobContext PyNone) nine_answers)
    as [_ [_ H]].
  - reflexivity.
  - vm_compute. discriminate.
  - exact H.
Defined.

(** Another value for the speech-recognition key. *)
Lemma deepgram_key_value_unused_witness :
  entrypoint scripted (fun _ _ => Some 1%Q) cancels_at_once env_full []
    (mkJobContext PyNone) (fresh nine_answers)
  = entrypoint scripted (fun _ _ => Some 1%Q) cancels_at_once env_other_key
      [] (mkJobContext PyNone) (fresh nine_answers).
Proof.
  apply (@deepgram_key_value_unused _ scripted (fun _ _ => Some 1%Q)
           cancels_at_once env_full [] env_other_key (mkJobContext PyNone)
           (fresh nine_answers)).
  - intros k Hk. unfold env_full, env_other_key, env_of. cbn [find fst snd].
    destruct (str_eqb (lit "AZURE_SPEECH_KEY") k); [reflexivity|].
    destruct (str_eqb (lit "AZURE_SPEECH_REGION") k); [reflexivity|].
    destruct (str_eqb (lit "GROQ_API_KEY") k); [reflexivity|].
    destruct (str_eqb (lit "DEEPGRAM_API_KEY") k) eqn:Hd; [|reflexivity].
    exfalso. apply Hk. symmetry. apply str_eqb_eq. exact Hd.
  - reflexivity.
Defined.

Section CredentialsMore.

Variable W : Type.
Variable ext : call -> W -> E pyval * W.
Variable duration : call -> W -> option Q.
Variable interrupt : call -> W -> Q * E pyval * W.
Variable environ : str -> option str.
Variable INSTRUCTIONS : str.

Lemma unset_or_empty_is_absent (c : credential) (k : str) :
  In k (credential_vars c) ->
  environ k = None \/ environ k = Some [] ->
  absent environ c = true.
Proof.
  intros Hin Hk.
  assert (Hnot : py_not (os_getenv environ k) = true).
  { unfold os_getenv. destruct Hk as [-> | ->]; reflexivity. }
  destruct c; simpl in Hin; unfold absent.
  - destruct Hin as [<-|[<-|[]]]; rewrite Hnot.
    + reflexivity.
    + apply orb_true_r.
  - destruct Hin as [<-|[]]. exact Hnot.
  - destruct Hin as [<-|[]]. exact Hnot.
Qed.

(** X16. A credential variable that is unset, or set to the empty
    string, stops bootstrap: [entrypoint] returns after the start line
    and one error line (for that credential or one checked before it),
    without any external call and without creating an [Assistant].  For
    the speech service either of its two variables suffices. *)
Theorem unset_or_empty_credential_aborts (ctx : JobContext) (c : credential)
    (k : str) (st : state W) :
  In k (credential_vars c) ->
  environ k = None \/ environ k = Some [] ->
  exists c',
    (rank c' <= rank c)%nat
    /\ fst (entrypoint ext duration interrupt environ INSTRUCTIONS ctx st)
       = inr PyNone
    /\ new_log st
         (snd (entrypoint ext duration interrupt environ INSTRUCTIONS ctx st))
       = [ (INFO, lit "Starting agent initialization...")
         ; (ERROR, missing_message c') ]
    /\ trace
         (snd (entrypoint ext duration interrupt environ INSTRUCTIONS ctx st))
       = trace st
    /\ heap
         (snd (entrypoint ext duration interrupt environ INSTRUCTIONS ctx st))
       = heap st.
Proof.
  intros Hin Hk.
  destruct (@absent_first environ c (@unset_or_empty_is_absent c k Hin Hk))
    as [c' [Hfirst Hrank]].
  exists c'. split; [exact Hrank|].
  rewrite (@entrypoint_first_absent W ext duration interrupt environ
             INSTRUCTIONS ctx c' st Hfirst).
  unfold new_log, logged, logger. cbn [fst snd log trace heap].
  rewrite <- app_assoc, skipn_length_app. repeat split.
Qed.

End CredentialsMore.

(** The region is set to the empty string. *)
Lemma unset_or_empty_credential_aborts_witness :
  fst (entrypoint scripted (fun _ _ => None) cancels_at_once env_empty_region
         [] (mkJobContext PyNone) (fresh idle))
  = inr PyNone
  /\ trace
       (snd (entrypoint scripted (fun _ _ => None) cancels_at_once
               env_empty_region [] (mkJobContext PyNone) (fresh idle)))
     = [].
Proof.
  destruct (@unset_or_empty_credential_aborts _ scripted (fun _ _ => None)
              cancels_at_once env_empty_region [] (mkJobContext PyNone)
              Azure_speech (lit "AZURE_SPEECH_REGION") (fresh idle))
    as [c' [_ [H1 [_ [H2 _]]]]].
  - simpl. auto.
  - right. reflexivity.
  - split; [exact H1 | exact H2].
Defined.
